(** * Cell execution monitor: a shallow embedding of [jupter_printer.py]

    The module hooks the pre/post cell-execution events of an IPython shell,
    prints the cell before it runs, tees [sys.stdout]/[sys.stderr] while it
    runs, and prints a summary afterwards.

    Layout of this file:
    - Python text ([str]) as a list of code points, with [strip] and [split];
    - the stream tee [CellOutputCapture] over an explicit world holding the
      two process-wide output targets and the trace of the real streams;
    - the three formatters, as producers of [print] payloads;
    - the hook callbacks [pre_execute] and [post_execute];
    - the properties. *)

From Stdlib Require Import ZArith NArith List String Ascii Lia DecimalString.
From Stdlib Require Import Floats.
From stdpp Require Import base list gmap.

Local Open Scope N_scope.

(** ** Python text *)

(** A Python [str] is a sequence of Unicode code points. *)
Abbreviation pystr := (list N).

(** An ASCII literal of the source, as Python text. *)
Definition py (s : string) : pystr :=
  map N_of_ascii (list_ascii_of_string s).
Arguments py s%_string.

(** [str.isspace] on one character: the code points CPython's
    [Py_UNICODE_ISSPACE] accepts. *)
Definition is_space (c : N) : bool :=
  ((0x09 <=? c) && (c <=? 0x0D)) || ((0x1C <=? c) && (c <=? 0x20))
  || (c =? 0x85) || (c =? 0xA0) || (c =? 0x1680)
  || ((0x2000 <=? c) && (c <=? 0x200A))
  || (c =? 0x2028) || (c =? 0x2029) || (c =? 0x202F) || (c =? 0x205F)
  || (c =? 0x3000).

Fixpoint lstrip (s : pystr) : pystr :=
  match s with
  | c :: s' => if is_space c then lstrip s' else s
  | [] => []
  end.

Definition rstrip (s : pystr) : pystr := rev (lstrip (rev s)).

(** [s.strip()] *)
Definition strip (s : pystr) : pystr := rstrip (lstrip s).

(** Truth value of a [str]: non-empty. *)
Definition truthy (s : pystr) : bool :=
  match s with [] => false | _ :: _ => true end.

(** [s.split(sep)] for a one-character separator: never the empty list. *)
Fixpoint split (sep : N) (s : pystr) : list pystr :=
  match s with
  | [] => [[]]
  | c :: s' =>
      if c =? sep then [] :: split sep s'
      else match split sep s' with
           | p :: ps => (c :: p) :: ps
           | [] => [[c]]
           end
  end.

(** ['\n'], which is also [chr(10)]. *)
Definition LF : N := 10.

(** [''.join(chunks)] *)
Definition join (chunks : list pystr) : pystr := concat chunks.

(** ** [class Colors] *)

Module Colors.
Definition ESC : N := 0x1B.
Definition BLUE : pystr := ESC :: py "[94m".
Definition GREEN : pystr := ESC :: py "[92m".
Definition YELLOW : pystr := ESC :: py "[93m".
Definition RED : pystr := ESC :: py "[91m".
Definition PURPLE : pystr := ESC :: py "[95m".
Definition CYAN : pystr := ESC :: py "[96m".
Definition WHITE : pystr := ESC :: py "[97m".
Definition BOLD : pystr := ESC :: py "[1m".
Definition UNDERLINE : pystr := ESC :: py "[4m".
Definition END : pystr := ESC :: py "[0m".
End Colors.

(** ** The process-wide output targets and the tee *)

(** What a stream variable ([sys.stdout], [self.original_stdout], ...) can
    refer to: [None], the capture object itself, or a stream of the host. *)
Inductive target : Type :=
| NoTarget
| Self
| Real (h : nat).

(** What the streams of the host observe, oldest first. *)
Inductive event : Type :=
| Wrote (h : nat) (text : pystr)
| Flushed (h : nat).

(** The fields of [CellOutputCapture]. The lock is held for the whole body of
    [start_capture], [stop_capture] and the guarded part of [write], so each
    of them is one atomic step below. *)
Record CellOutputCapture : Type := mkCapture {
  original_stdout : target;
  original_stderr : target;
  captured_output : list pystr;
  is_capturing : bool
}.

(** [CellOutputCapture.__init__] *)
Definition new_capture : CellOutputCapture :=
  {| original_stdout := NoTarget;
     original_stderr := NoTarget;
     captured_output := [];
     is_capturing := false |}.

(** The state the module works on: [sys.stdout], [sys.stderr], the global
    [output_capture] instance, and the trace of the host's streams. *)
Record World : Type := mkWorld {
  sys_stdout : target;
  sys_stderr : target;
  output_capture : CellOutputCapture;
  trace : list event
}.

(** The state right after the module is loaded in a process whose two output
    targets are the streams [out] and [err]. *)
Definition initial_world (out err : nat) : World :=
  {| sys_stdout := Real out;
     sys_stderr := Real err;
     output_capture := new_capture;
     trace := [] |}.

(** [CellOutputCapture.start_capture] *)
Definition start_capture (w : World) : World :=
  let c := output_capture w in
  if negb (is_capturing c) then
    {| sys_stdout := Self;
       sys_stderr := Self;
       output_capture :=
         {| original_stdout := sys_stdout w;
            original_stderr := sys_stderr w;
            captured_output := [];
            is_capturing := true |};
       trace := trace w |}
  else w.

(** [CellOutputCapture.stop_capture]: the new state and the returned text. *)
Definition stop_capture (w : World) : World * pystr :=
  let c := output_capture w in
  if is_capturing c then
    ({| sys_stdout := original_stdout c;
        sys_stderr := original_stderr c;
        output_capture :=
          {| original_stdout := original_stdout c;
             original_stderr := original_stderr c;
             captured_output := captured_output c;
             is_capturing := false |};
        trace := trace w |},
     join (captured_output c))
  else (w, []).

(** The text [write] forwards: [f"{Colors.GREEN}[REALTIME] {text}{Colors.END}"]. *)
Definition realtime_copy (text : pystr) : pystr :=
  Colors.GREEN ++ py "[REALTIME] " ++ text ++ Colors.END.

(** [CellOutputCapture.write]. The test [if self.original_stdout:] fails for
    [None] and holds for a stream object. [None] as a result stands for a
    call that never returns: when the snapshotted target is the capture
    object itself, the forwarding call re-enters [write] with a chunk that is
    not blank and blocks on the lock this call holds ([threading.Lock] is not
    re-entrant). *)
Definition write (w : World) (text : pystr) : option World :=
  let c := output_capture w in
  if truthy text && truthy (strip text) then
    let c' := {| original_stdout := original_stdout c;
                 original_stderr := original_stderr c;
                 captured_output := captured_output c ++ [text];
                 is_capturing := is_capturing c |} in
    match original_stdout c with
    | NoTarget =>
        Some {| sys_stdout := sys_stdout w; sys_stderr := sys_stderr w;
                output_capture := c'; trace := trace w |}
    | Real h =>
        Some {| sys_stdout := sys_stdout w; sys_stderr := sys_stderr w;
                output_capture := c';
                trace := trace w ++ [Wrote h (realtime_copy text); Flushed h] |}
    | Self => None
    end
  else Some w.

(** ** Numbers as text *)

(** [str(n)] for a natural number. *)
Definition dec_N (n : N) : pystr := py (NilZero.string_of_uint (N.to_uint n)).

(** [str(n)] for an [int]. *)
Definition dec_Z (z : Z) : pystr :=
  match z with
  | Zneg p => py "-" ++ dec_N (Npos p)
  | _ => dec_N (Z.to_N z)
  end.

(** Padding on the left up to a minimal width. *)
Definition pad_left (c : N) (width : nat) (text : pystr) : pystr :=
  replicate (width - length text) c ++ text.

(** The format field [{i:2d}]: decimal, right-aligned, at least 2 wide. *)
Definition format_2d (i : Z) : pystr := pad_left 32 2 (dec_Z i).

Module PyFloat.
Local Open Scope Z_scope.

(** The rational [n / d] ([d > 0]) rounded to the nearest integer, a tie
    going to the even one. *)
Definition round_half_even (n d : Z) : Z :=
  let q := n / d in
  let r := n mod d in
  match 2 * r ?= d with
  | Lt => q
  | Gt => q + 1
  | Eq => if Z.even q then q else q + 1
  end.

(** The format field [{x:.3f}]: the exact value of the double, correctly
    rounded to three decimals. *)
Definition format_3f (x : float) : pystr :=
  match Prim2SF x with
  | S754_nan => py "nan"
  | S754_infinity s => if s then py "-inf" else py "inf"
  | S754_zero s => if s then py "-0.000" else py "0.000"
  | S754_finite s m e =>
      let n := if 0 <=? e then Zpos m * 1000 * 2 ^ e
               else round_half_even (Zpos m * 1000) (2 ^ (- e)) in
      (if s then py "-" else []) ++ dec_Z (n / 1000) ++ py "."
        ++ pad_left 48%N 3 (dec_Z (n mod 1000))
  end.

(** [n1 * 2^a1 * 10^b1] compared with [n2 * 2^a2 * 10^b2]. *)
Definition cmp_scaled (n1 a1 b1 n2 a2 b2 : Z) : comparison :=
  let a := Z.min a1 a2 in
  let b := Z.min b1 b2 in
  (n1 * 2 ^ (a1 - a) * 10 ^ (b1 - b)) ?= (n2 * 2 ^ (a2 - a) * 10 ^ (b2 - b)).

(** The decimal exponent [p] of [m * 2^e], [10^(p-1) <= m * 2^e < 10^p],
    reached from an estimate. *)
Fixpoint adjust_decpt (fuel : nat) (m e p : Z) : Z :=
  match fuel with
  | O => p
  | S fuel' =>
      match cmp_scaled m e 0 1 0 p with
      | Lt =>
          match cmp_scaled m e 0 1 0 (p - 1) with
          | Lt => adjust_decpt fuel' m e (p - 1)
          | _ => p
          end
      | _ => adjust_decpt fuel' m e (p + 1)
      end
  end.

Definition decpt_of (m e : Z) : Z :=
  adjust_decpt 8 m e ((Z.log2 m + e) * 30103 / 100000).

(** Does the decimal [D * 10^q] read back as the double [m * 2^e]? Its
    rounding interval reaches half way to each neighbour, and owns its two
    ends when [m] is even. *)
Definition reads_back (m e D q : Z) : bool :=
  let narrow := (m =? 2 ^ 52) && (-1074 <? e) in
  let lo := if narrow then cmp_scaled (4 * m - 1) (e - 2) 0 D 0 q
            else cmp_scaled (2 * m - 1) (e - 1) 0 D 0 q in
  let hi := cmp_scaled D 0 q (2 * m + 1) (e - 1) 0 in
  let ok c := match c with Lt => true | Eq => Z.even m | Gt => false end in
  ok lo && ok hi.

(** The shortest digits that read back as [m * 2^e]: for the first length
    [k] that has one, the nearest [k]-digit decimal which does. The result
    is the integer the digits spell and the exponent of its last digit. *)
Fixpoint shortest (fuel : nat) (m e p k : Z) : Z * Z :=
  let q := p - k in
  let Dlo := if 0 <=? q then (m * 2 ^ e) / 10 ^ q
             else if 0 <=? e then m * 2 ^ e * 10 ^ (- q)
             else (m * 10 ^ (- q)) / 2 ^ (- e) in
  let Dhi := Dlo + 1 in
  let inlo := reads_back m e Dlo q in
  let inhi := reads_back m e Dhi q in
  let nearer := match cmp_scaled (2 * m) e 0 (Dlo + Dhi) 0 q with
                | Lt => Dlo
                | Gt => Dhi
                | Eq => if Z.even Dlo then Dlo else Dhi
                end in
  match fuel with
  | O => (nearer, q)
  | S fuel' =>
      if inlo && inhi then (nearer, q)
      else if inlo then (Dlo, q)
      else if inhi then (Dhi, q)
      else shortest fuel' m e p (k + 1)
  end.

(** Trailing zeros of the digits move into the exponent. *)
Fixpoint drop_zeros (fuel : nat) (D q : Z) : Z * Z :=
  match fuel with
  | O => (D, q)
  | S fuel' =>
      if (D mod 10 =? 0) && (0 <? D) then drop_zeros fuel' (D / 10) (q + 1)
      else (D, q)
  end.

(** [repr(x)], which [str(x)] returns as well: the shortest digits, in
    exponent notation when the decimal point falls outside [(-4, 16]]. *)
Definition float_repr (x : float) : pystr :=
  match Prim2SF x with
  | S754_nan => py "nan"
  | S754_infinity s => if s then py "-inf" else py "inf"
  | S754_zero s => if s then py "-0.0" else py "0.0"
  | S754_finite s m e =>
      let p := decpt_of (Zpos m) e in
      let '(D0, q0) := shortest 17 (Zpos m) e p 1 in
      let '(D, q) := drop_zeros 20 D0 q0 in
      let ds := dec_Z D in
      let nd := Z.of_nat (length ds) in
      let decpt := q + nd in
      (if s then py "-" else []) ++
      (if (decpt <=? -4) || (16 <? decpt) then
         take 1 ds ++ (if 1 <? nd then py "." ++ drop 1 ds else [])
         ++ py "e" ++ (if decpt - 1 <? 0 then py "-" else py "+")
         ++ pad_left 48%N 2 (dec_Z (Z.abs (decpt - 1)))
       else if decpt <=? 0 then
         py "0." ++ replicate (Z.to_nat (- decpt)) 48%N ++ ds
       else if nd <=? decpt then
         ds ++ replicate (Z.to_nat (decpt - nd)) 48%N ++ py ".0"
       else take (Z.to_nat decpt) ds ++ py "." ++ drop (Z.to_nat decpt) ds)
  end.
End PyFloat.

(** ** Python values *)

(** The exceptions met here: three built-in ones by constructor, any other
    one by the name of its class. *)
Inductive exn : Type :=
| AttributeError
| TypeError
| OverflowError
| UserException (name : pystr).

(** [sys.get_int_max_str_digits()], at its default: CPython 3.11 refuses to
    convert an [int] of more decimal digits to text. *)
Definition INT_MAX_STR_DIGITS : Z := 4300.

(** The least magnitude with more digits than that, [10 ** 4300]. *)
Definition int_str_bound : Z := Eval vm_compute in (10 ^ 4300)%Z.

(** [str(n)] for an [int]: the decimal digits, or [ValueError] when there are
    more than [INT_MAX_STR_DIGITS] of them, the sign not counted. *)
Definition int_str (n : Z) : exn + pystr :=
  if (int_str_bound <=? Z.abs n)%Z then inl (UserException (py "ValueError"))
  else inr (dec_Z n).

(** The objects the monitor can meet as a cell result or in the namespace.
    [VInstance cls outcome] is an instance of a class named [cls] that defines
    no arithmetic and whose [__str__] ends in [outcome]: a text, or a raised
    exception. *)
Inductive pyval : Type :=
| VNone
| VInt (n : Z)
| VFloat (x : float)
| VStr (s : pystr)
| VInstance (cls : pystr) (outcome : exn + pystr).

(** [x is not None] *)
Definition is_not_none (v : pyval) : bool :=
  match v with VNone => false | _ => true end.

(** [str(x)] *)
Definition py_str (v : pyval) : exn + pystr :=
  match v with
  | VNone => inr (py "None")
  | VInt n => int_str n
  | VFloat x => inr (PyFloat.float_repr x)
  | VStr s => inr s
  | VInstance _ outcome => outcome
  end.

(** [type(x).__name__] *)
Definition type_name (v : pyval) : pystr :=
  match v with
  | VNone => py "NoneType"
  | VInt _ => py "int"
  | VFloat _ => py "float"
  | VStr _ => py "str"
  | VInstance cls _ => cls
  end.

(** [float(n)] for an [int]: the nearest double, [OverflowError] beyond the
    largest one. *)
Definition float_of_int (n : Z) : exn + float :=
  match binary_normalize prec emax n 0 false with
  | S754_infinity _ => inl OverflowError
  | sf => inr (SF2Prim sf)
  end.

(** [t - v] for a float [t] and an arbitrary object [v]. *)
Definition float_sub (t : float) (v : pyval) : exn + float :=
  match v with
  | VFloat x => inr (PrimFloat.sub t x)
  | VInt n =>
      match float_of_int n with
      | inr x => inr (PrimFloat.sub t x)
      | inl e => inl e
      end
  | VNone | VStr _ | VInstance _ _ => inl TypeError
  end.

(** ** Printing *)

(** A computation that calls [print] and may raise: the payloads printed so
    far, oldest first, and how it ended. *)
Definition printed (A : Type) : Type := (list pystr * (exn + A))%type.

Definition ret {A} (a : A) : printed A := ([], inr a).

Definition raise {A} (e : exn) : printed A := ([], inl e).

Definition bind {A B} (m : printed A) (k : A -> printed B) : printed B :=
  match m with
  | (out, inl e) => (out, inl e)
  | (out, inr a) => let '(out', r) := k a in (out ++ out', r)
  end.

Notation "'let*' x ':=' m 'in' k" := (bind m (fun x => k))
  (at level 10, x name, m at level 100, k at level 200).
Notation "m ';;' k" := (bind m (fun _ => k))
  (at level 100, k at level 200, right associativity).

(** [print(text)] *)
Definition print (text : pystr) : printed unit := ([text], inr tt).

(** A call that returns a value or raises. *)
Definition call {A} (r : exn + A) : printed A := ([], r).

(** [for x in xs: body(x)] *)
Fixpoint for_each {A} (xs : list A) (body : A -> printed unit) : printed unit :=
  match xs with
  | [] => ret tt
  | x :: xs' => body x ;; for_each xs' body
  end.

(** [enumerate(xs, start)] *)
Fixpoint enumerate {A} (start : Z) (xs : list A) : list (Z * A) :=
  match xs with
  | [] => []
  | x :: xs' => (start, x) :: enumerate (start + 1)%Z xs'
  end.

(** ** The formatters *)

(** ['='*60] *)
Definition rule : pystr := replicate 60 61.

(** The pictograms of the source's literals, as the file stores them. *)
Definition ICON_PRE : pystr := [0xF0; 0x178; 0x161; 0x20AC].
Definition ICON_CLOCK : pystr := [0xE2; 0xB1; 0xEF; 0xB8].
Definition ICON_POST : pystr := [0xE2; 0x153; 0x2026].
Definition ICON_LINES : pystr := [0xF0; 0x178; 0x201C].
Definition ICON_RESULT : pystr := [0xF0; 0x178; 0x201C; 0x160].
Definition ICON_PREVIEW : pystr := [0xF0; 0x178; 0x201C; 0x2039].
Definition ICON_DONE : pystr := [0xF0; 0x178; 0x17D; 0x2030].

(** The line [pre_run_print] prints for the [i]-th line of the cell. *)
Definition numbered_line (i : Z) (line : pystr) : pystr :=
  Colors.BLUE ++ py "[" ++ format_2d i ++ py "] " ++ line ++ Colors.END.

(** [pre_run_print(cell_content)] *)
Definition pre_run_print (cell_content : pystr) : printed unit :=
  print (LF :: Colors.BLUE ++ Colors.BOLD ++ rule) ;;
  print (ICON_PRE ++ py " PRE-RUN: Cell Content") ;;
  print (rule ++ Colors.END) ;;
  let lines := split LF (strip cell_content) in
  for_each (enumerate 1 lines) (fun '(i, line) => print (numbered_line i line)) ;;
  print (Colors.BLUE ++ rule) ;;
  print (ICON_CLOCK ++ py "  Execution starting...") ;;
  print (rule ++ Colors.END ++ [LF]).

(** [realtime_print(text)]; [timestamp] is what [time.strftime("%H:%M:%S")]
    returns at the call. *)
Definition realtime_print (timestamp text : pystr) : printed unit :=
  if truthy text && truthy (strip text) then
    print (Colors.GREEN ++ py "[" ++ timestamp ++ py "] " ++ strip text
             ++ Colors.END)
  else ret tt.

(** The lines of [post_run_print] that report the result. *)
Definition type_line (v : pyval) : pystr :=
  Colors.YELLOW ++ ICON_RESULT ++ py " Result type: " ++ type_name v
    ++ Colors.END.

Definition preview_line (result_str : pystr) : pystr :=
  Colors.YELLOW ++ ICON_PREVIEW ++ py " Result preview: " ++ result_str
    ++ Colors.END.

Definition no_value_line : pystr :=
  Colors.YELLOW ++ ICON_RESULT ++ py " No return value" ++ Colors.END.

(** [result_str[:200] + "..."] when [len(result_str) > 200] *)
Definition preview (result_str : pystr) : pystr :=
  if (200 <? length result_str)%nat then take 200 result_str ++ py "..."
  else result_str.

(** [post_run_print(execution_result, execution_time, cell_content)] *)
Definition post_run_print (execution_result : pyval) (execution_time : float)
    (cell_content : pystr) : printed unit :=
  print (LF :: Colors.YELLOW ++ Colors.BOLD ++ rule) ;;
  print (ICON_POST ++ py " POST-RUN: Execution Complete") ;;
  print (rule ++ Colors.END) ;;
  print (Colors.YELLOW ++ ICON_CLOCK ++ py "  Execution time: "
           ++ PyFloat.format_3f execution_time ++ py " seconds" ++ Colors.END) ;;
  print (Colors.YELLOW ++ ICON_LINES ++ py " Lines executed: "
           ++ dec_Z (Z.of_nat (length (split LF (strip cell_content))))
           ++ Colors.END) ;;
  (if is_not_none execution_result then
     let* result_str := call (py_str execution_result) in
     let result_str := preview result_str in
     print (type_line execution_result) ;;
     if truthy (strip result_str) then print (preview_line result_str)
     else ret tt
   else print no_value_line) ;;
  print (Colors.YELLOW ++ rule) ;;
  print (ICON_DONE ++ py " Cell execution completed successfully!") ;;
  print (rule ++ Colors.END ++ [LF]).

(** ** The hook *)

(** The part of the IPython shell the hook touches: the user namespace, a
    [dict], and the attribute [_current_cell_content], absent until the
    wrapped [transform_cell] has run once. *)
Record Shell : Type := mkShell {
  user_ns : gmap pystr pyval;
  _current_cell_content : option pystr
}.

(** The fields of [CellExecutionHook]; [ip] is what [get_ipython()] returned,
    [None] outside IPython. *)
Record CellExecutionHook : Type := mkHook {
  ip : option Shell;
  active : bool
}.

(** Everything the callbacks read and write: the output state, the global
    [cell_hook], and the clock behind [time.time()], whose [n]-th reading is
    [clock n]. *)
Record Session : Type := mkSession {
  io : World;
  cell_hook : CellExecutionHook;
  clock : nat -> float;
  ticks : nat
}.

Definition set_io (w : World) (s : Session) : Session :=
  {| io := w; cell_hook := cell_hook s; clock := clock s; ticks := ticks s |}.

Definition set_user_ns (ns : gmap pystr pyval) (s : Session) : Session :=
  {| io := io s;
     cell_hook :=
       {| ip := match ip (cell_hook s) with
                | Some shell =>
                    Some {| user_ns := ns;
                            _current_cell_content := _current_cell_content shell |}
                | None => None
                end;
          active := active (cell_hook s) |};
     clock := clock s;
     ticks := ticks s |}.

(** [time.time()] *)
Definition time_time (s : Session) : float * Session :=
  (clock s (ticks s),
   {| io := io s; cell_hook := cell_hook s; clock := clock s;
      ticks := S (ticks s) |}).

(** Why a call has no outcome in this model. *)
Inductive stuck : Type :=
| Deadlock
| DictAttribute.

(** How a callback ends: normally, with an exception, or not at all. *)
Inductive res (A : Type) : Type :=
| Done (a : A) (s : Session)
| Raised (e : exn) (s : Session)
| Stuck (why : stuck).
Arguments Done {A} a s.
Arguments Raised {A} e s.
Arguments Stuck {A} why.

(** [print(text)] on the current [sys.stdout]: the text, then the line end,
    each through the target's [write]; nothing when [sys.stdout] is [None]. *)
Definition print_out (text : pystr) (w : World) : option World :=
  match sys_stdout w with
  | NoTarget => Some w
  | Real h =>
      Some {| sys_stdout := sys_stdout w; sys_stderr := sys_stderr w;
              output_capture := output_capture w;
              trace := trace w ++ [Wrote h text; Wrote h [LF]] |}
  | Self =>
      match write w text with
      | Some w' => write w' [LF]
      | None => None
      end
  end.

Fixpoint print_all (texts : list pystr) (w : World) : option World :=
  match texts with
  | [] => Some w
  | text :: rest =>
      match print_out text w with
      | Some w' => print_all rest w'
      | None => None
      end
  end.

(** Running a formatter: its prints reach [sys.stdout] in order, then it
    returns or raises. *)
Definition emit {A} (p : printed A) (s : Session) : res A :=
  match print_all (fst p) (io s) with
  | None => Stuck Deadlock
  | Some w =>
      match snd p with
      | inl e => Raised e (set_io w s)
      | inr a => Done a (set_io w s)
      end
  end.

(** The attribute names of a [dict] object (CPython 3.11). *)
Definition dict_attribute_names : list pystr :=
  map py
    ["__class__"; "__class_getitem__"; "__contains__"; "__delattr__";
     "__delitem__"; "__dir__"; "__doc__"; "__eq__"; "__format__"; "__ge__";
     "__getattribute__"; "__getitem__"; "__getstate__"; "__gt__"; "__hash__";
     "__init__"; "__init_subclass__"; "__ior__"; "__iter__"; "__le__";
     "__len__"; "__lt__"; "__ne__"; "__new__"; "__or__"; "__reduce__";
     "__reduce_ex__"; "__repr__"; "__reversed__"; "__ror__"; "__setattr__";
     "__setitem__"; "__sizeof__"; "__str__"; "__subclasshook__"; "clear";
     "copy"; "fromkeys"; "get"; "items"; "keys"; "pop"; "popitem";
     "setdefault"; "update"; "values"]%string.

(** [getattr(d, name, default)] for a dict [d]: the name is looked up among
    the attributes of the dict object, never among its keys, and [default]
    is returned when there is no such attribute. The attributes themselves
    (bound methods, slot wrappers) are not values of this model: the result is
    [None] for their names. *)
Definition getattr_dict (d : gmap pystr pyval) (name : pystr)
    (default : pyval) : option pyval :=
  if bool_decide (name ∈ dict_attribute_names) then None else Some default.

Definition CELL_START_TIME : pystr := py "_cell_start_time".
Definition UNDERSCORE : pystr := py "_".
Definition NO_CONTENT : pystr := py "No content available".

(** [getattr(self.ip, '_current_cell_content', 'No content available')] *)
Definition cell_content_of (shell : Shell) : pystr :=
  default NO_CONTENT (_current_cell_content shell).

(** [CellExecutionHook.pre_execute] *)
Definition pre_execute (s : Session) : res unit :=
  match active (cell_hook s), ip (cell_hook s) with
  | true, Some shell =>
      let cell_content := cell_content_of shell in
      match emit (pre_run_print cell_content) s with
      | Done _ s1 =>
          let s2 := set_io (start_capture (io s1)) s1 in
          let '(now, s3) := time_time s2 in
          Done tt (set_user_ns (<[CELL_START_TIME := VFloat now]> (user_ns shell)) s3)
      | r => r
      end
  | _, _ => Done tt s
  end.

(** [CellExecutionHook.post_execute] *)
Definition post_execute (s : Session) : res unit :=
  if active (cell_hook s) then
    let '(w, captured) := stop_capture (io s) in
    let s1 := set_io w s in
    match ip (cell_hook s1) with
    | None => Raised AttributeError s1
    | Some shell =>
        let '(now, s2) := time_time s1 in
        match getattr_dict (user_ns shell) CELL_START_TIME (VFloat now) with
        | None => Stuck DictAttribute
        | Some start_time =>
            let '(now', s3) := time_time s2 in
            match float_sub now' start_time with
            | inl e => Raised e s3
            | inr execution_time =>
                let cell_content := cell_content_of shell in
                match getattr_dict (user_ns shell) UNDERSCORE VNone with
                | None => Stuck DictAttribute
                | Some result =>
                    emit (post_run_print result execution_time cell_content) s3
                end
            end
        end
    end
  else Done tt s.

(** Following the specification's words: [post_execute] with both reads of
    the namespace done by key, as the write of [pre_execute] is. *)
Definition post_execute_by_key (s : Session) : res unit :=
  if active (cell_hook s) then
    let '(w, captured) := stop_capture (io s) in
    let s1 := set_io w s in
    match ip (cell_hook s1) with
    | None => Raised AttributeError s1
    | Some shell =>
        let '(now, s2) := time_time s1 in
        let start_time := default (VFloat now) (user_ns shell !! CELL_START_TIME) in
        let '(now', s3) := time_time s2 in
        match float_sub now' start_time with
        | inl e => Raised e s3
        | inr execution_time =>
            let cell_content := cell_content_of shell in
            let result := default VNone (user_ns shell !! UNDERSCORE) in
            emit (post_run_print result execution_time cell_content) s3
        end
    end
  else Done tt s.

(** ** Sequences of calls on the tee *)

(** The chunks of successive [write] calls, in arrival order. [None] when one
    of the calls never returns. *)
Fixpoint writes (w : World) (chunks : list pystr) : option World :=
  match chunks with
  | [] => Some w
  | chunk :: rest =>
      match write w chunk with
      | Some w' => writes w' rest
      | None => None
      end
  end.

Inductive call_kind : Type :=
| Start
| Stop.

Definition run_call (w : World) (c : call_kind) : World :=
  match c with
  | Start => start_capture w
  | Stop => fst (stop_capture w)
  end.

(** A sequence of [start]/[stop] calls, oldest first. *)
Definition run_calls (w : World) (calls : list call_kind) : World :=
  fold_left run_call calls w.

(** Any call on the tee. *)
Inductive tee_call : Type :=
| CallStart
| CallStop
| CallWrite (text : pystr).

Definition run_tee_call (w : World) (c : tee_call) : option World :=
  match c with
  | CallStart => Some (start_capture w)
  | CallStop => Some (fst (stop_capture w))
  | CallWrite text => write w text
  end.

Fixpoint run_tee_calls (w : World) (calls : list tee_call) : option World :=
  match calls with
  | [] => Some w
  | c :: rest =>
      match run_tee_call w c with
      | Some w' => run_tee_calls w' rest
      | None => None
      end
  end.

(** The tee is never its own snapshot, and never the installed target of an
    inactive session. *)
Definition tee_consistent (w : World) : Prop :=
  original_stdout (output_capture w) <> Self
  /\ (is_capturing (output_capture w) = false -> sys_stdout w <> Self).

(** The chunks that are not blank: non-empty after trimming. *)
Definition kept (chunks : list pystr) : list pystr :=
  List.filter (fun chunk => truthy (strip chunk)) chunks.

(** What the snapshotted primary target receives for one kept chunk. *)
Definition forwarded (t : target) (chunk : pystr) : list event :=
  match t with
  | Real h => [Wrote h (realtime_copy chunk); Flushed h]
  | NoTarget | Self => []
  end.

(** The state expected after the chunks have been written. *)
Definition after_writes (w : World) (chunks : list pystr) : World :=
  let c := output_capture w in
  {| sys_stdout := sys_stdout w;
     sys_stderr := sys_stderr w;
     output_capture :=
       {| original_stdout := original_stdout c;
          original_stderr := original_stderr c;
          captured_output := captured_output c ++ kept chunks;
          is_capturing := is_capturing c |};
     trace := trace w ++ flat_map (forwarded (original_stdout c)) (kept chunks) |}.

(** ** Recognising the lines of the summary *)

Fixpoint starts_with (prefix text : pystr) : bool :=
  match prefix, text with
  | [], _ => true
  | _ :: _, [] => false
  | a :: prefix', b :: text' => (a =? b) && starts_with prefix' text'
  end.

Definition is_type_line (line : pystr) : bool :=
  starts_with (Colors.YELLOW ++ ICON_RESULT ++ py " Result type: ") line.

Definition is_preview_line (line : pystr) : bool :=
  starts_with (Colors.YELLOW ++ ICON_PREVIEW ++ py " Result preview: ") line.

Definition is_no_value_line (line : pystr) : bool :=
  starts_with (Colors.YELLOW ++ ICON_RESULT ++ py " No return value") line.

(** A line that reports neither a type, nor a preview, nor a missing value. *)
Definition is_other_line (line : pystr) : bool :=
  negb (is_type_line line || is_preview_line line || is_no_value_line line).

(** ** Sample inputs *)

(** A freshly loaded module in a process whose output targets are the
    streams 1 and 2. *)
Definition sample_world : World := initial_world 1 2.

(** A session under way: started from [sample_world], with one chunk
    written. *)
Definition capturing_world : World :=
  {| sys_stdout := Self;
     sys_stderr := Self;
     output_capture :=
       {| original_stdout := Real 1;
          original_stderr := Real 2;
          captured_output := [py "hello"];
          is_capturing := true |};
     trace := [Wrote 1 (realtime_copy (py "hello")); Flushed 1] |}.


(** A clock that reads 100.0, then 105.0, then 105.25 seconds. *)
Definition sample_clock (n : nat) : float :=
  match n with
  | O => 100%float
  | S O => 105%float
  | S (S _) => 105.25%float
  end.

(** An activated hook in a fresh process, about to run the cell [6 * 7]. *)
Definition sample_session : Session :=
  {| io := sample_world;
     cell_hook :=
       {| ip := Some {| user_ns := ∅; _current_cell_content := Some (py "6 * 7") |};
          active := true |};
     clock := sample_clock;
     ticks := 0 |}.

(** The session a callback leaves behind, when it returns or raises. *)
Definition session_after (r : res unit) (otherwise : Session) : Session :=
  match r with
  | Done _ s | Raised _ s => s
  | Stuck _ => otherwise
  end.

(** The namespace of the shell, empty when there is no shell. *)
Definition namespace (s : Session) : gmap pystr pyval :=
  match ip (cell_hook s) with
  | Some shell => user_ns shell
  | None => ∅
  end.

(** The host stores the value of the cell's last expression under ['_']. *)
Definition host_stores_result (v : pyval) (s : Session) : Session :=
  set_user_ns (<[UNDERSCORE := v]> (namespace s)) s.

(** [sample_session] after [pre_execute] has run and the cell has produced
    the value 42: the state in which [post_execute] fires. *)
Definition executed_session : Session :=
  host_stores_result (VInt 42)
    (session_after (pre_execute sample_session) sample_session).

(** The state [post_execute] hands to the formatter: capture stopped, the
    clock read twice. *)
Definition reporting_session (s : Session) : Session :=
  snd (time_time (snd (time_time (set_io (fst (stop_capture (io s))) s)))).

(** ** The rest of the tee *)

(** [CellOutputCapture.flush]: forwarded to the snapshotted primary target
    when there is one. It takes no lock. When the snapshot is the capture
    object itself the call re-enters [flush] without end, which Python stops
    with [RecursionError]. *)
Definition flush (w : World) : exn + World :=
  match original_stdout (output_capture w) with
  | NoTarget => inr w
  | Real h =>
      inr {| sys_stdout := sys_stdout w; sys_stderr := sys_stderr w;
             output_capture := output_capture w;
             trace := trace w ++ [Flushed h] |}
  | Self => inl (UserException (py "RecursionError"))
  end.

(** Any method of the tee. *)
Inductive stream_call : Type :=
| OnTee (c : tee_call)
| CallFlush.

(** [None]: the call does not return normally. *)
Definition run_stream_call (w : World) (c : stream_call) : option World :=
  match c with
  | OnTee c' => run_tee_call w c'
  | CallFlush => match flush w with inr w' => Some w' | inl _ => None end
  end.

Fixpoint run_stream_calls (w : World) (calls : list stream_call) : option World :=
  match calls with
  | [] => Some w
  | c :: rest =>
      match run_stream_call w c with
      | Some w' => run_stream_calls w' rest
      | None => None
      end
  end.

(** What stream [h] may observe from the tee: a flush, or the coloured copy
    of a chunk that is not blank. *)
Definition fed_by_tee (h : nat) (e : event) : Prop :=
  e = Flushed h
  \/ exists text, truthy (strip text) = true /\ e = Wrote h (realtime_copy text).

(** [sep.join(pieces)] for a one-character separator. *)
Fixpoint join_with (sep : N) (pieces : list pystr) : pystr :=
  match pieces with
  | [] => []
  | [p] => p
  | p :: rest => p ++ sep :: join_with sep rest
  end.

(** [s.count(c)] for one character. *)
Fixpoint count_char (c : N) (s : pystr) : nat :=
  match s with
  | [] => 0
  | a :: s' => (if a =? c then 1 else 0) + count_char c s'
  end.

(** A text with no white space at either end. *)
Definition trimmed (s : pystr) : Prop :=
  (forall a rest, s = a :: rest -> is_space a = false)
  /\ (forall front b, s = front ++ [b] -> is_space b = false).

(** ** The rest of the hook *)

(** The bound methods the hook hands to the event manager. *)
Inductive callback : Type :=
| PreExecuteCallback
| PostExecuteCallback.

Definition callback_eqb (a b : callback) : bool :=
  match a, b with
  | PreExecuteCallback, PreExecuteCallback
  | PostExecuteCallback, PostExecuteCallback => true
  | _, _ => false
  end.

(** The methods of [CellMonitorMagics]. *)
Inductive magic_command : Type :=
| MagicOn
| MagicOff
| MagicStatus.

(** What the module asks of the IPython shell, besides reading and writing
    its attributes: [events.register], [events.unregister], the assignment
    to [input_transformer_manager.transform_cell], and
    [register_magic_function]. The shell's side of these calls is not part
    of this module; each is taken to return. *)
Inductive host_call : Type :=
| EventsRegister (event : pystr) (cb : callback)
| EventsUnregister (event : pystr) (cb : callback)
| SetTransformCell
| RegisterMagicFunction (cmd : magic_command) (kind name : pystr).

(** A computation that also calls the host: the calls made, oldest first,
    and how it ended. *)
Definition hosted (A : Type) : Type := (list host_call * res A)%type.

(** [self.active = b] on the global hook. *)
Definition set_active (b : bool) (s : Session) : Session :=
  {| io := io s;
     cell_hook := {| ip := ip (cell_hook s); active := b |};
     clock := clock s;
     ticks := ticks s |}.

Definition ICON_ACTIVATED : pystr := [0xF0; 0x178; 0x17D; 0xAF].
Definition ICON_DEACTIVATED : pystr := [0xF0; 0x178; 0x203A; 0x2018].

Definition activated_line : pystr :=
  Colors.PURPLE ++ ICON_ACTIVATED
    ++ py " Cell Monitor activated! All cell executions will now be monitored."
    ++ Colors.END.

Definition deactivated_line : pystr :=
  Colors.RED ++ ICON_DEACTIVATED ++ py " Cell Monitor deactivated." ++ Colors.END.

Definition PRE_EXECUTE : pystr := py "pre_execute".
Definition POST_EXECUTE : pystr := py "post_execute".

(** [CellExecutionHook.activate]; [self.ip.events] raises [AttributeError]
    when [self.ip] is [None]. *)
Definition activate (s : Session) : hosted unit :=
  if negb (active (cell_hook s)) then
    match ip (cell_hook s) with
    | None => ([], Raised AttributeError s)
    | Some _ =>
        ([EventsRegister PRE_EXECUTE PreExecuteCallback;
          EventsRegister POST_EXECUTE PostExecuteCallback],
         emit (print activated_line) (set_active true s))
    end
  else ([], Done tt s).

(** [CellExecutionHook.deactivate] *)
Definition deactivate (s : Session) : hosted unit :=
  if active (cell_hook s) then
    match ip (cell_hook s) with
    | None => ([], Raised AttributeError s)
    | Some _ =>
        ([EventsUnregister PRE_EXECUTE PreExecuteCallback;
          EventsUnregister POST_EXECUTE PostExecuteCallback],
         emit (print deactivated_line) (set_active false s))
    end
  else ([], Done tt s).

(** The line of [status()] and of [%cell_monitor_status]. *)
Definition status_line (is_active : bool) : pystr :=
  (if is_active then Colors.GREEN else Colors.RED)
    ++ py "Cell Monitor Status: "
    ++ (if is_active then py "ACTIVE" else py "INACTIVE")
    ++ Colors.END.

(** [status()], which is also the body of [cell_monitor_status]. *)
Definition status (s : Session) : hosted unit :=
  ([], emit (print (status_line (active (cell_hook s)))) s).

(** The commands a user has: [activate()] or [%cell_monitor_on],
    [deactivate()] or [%cell_monitor_off], [status()] or
    [%cell_monitor_status]. *)
Inductive command : Type :=
| TurnOn
| TurnOff
| ShowStatus.

Definition run_command (s : Session) (c : command) : hosted unit :=
  match c with
  | TurnOn => activate s
  | TurnOff => deactivate s
  | ShowStatus => status s
  end.

(** Commands one after the other, until one does not return. *)
Fixpoint run_commands (s : Session) (commands : list command) : hosted unit :=
  match commands with
  | [] => ([], Done tt s)
  | c :: rest =>
      match run_command s c with
      | (calls, Done _ s') =>
          let '(calls', r) := run_commands s' rest in (calls ++ calls', r)
      | (calls, r) => (calls, r)
      end
  end.

(** How often a callback is registered for an event, by the calls made:
    registrations less unregistrations. *)
Fixpoint registrations (event : pystr) (cb : callback) (calls : list host_call) : Z :=
  match calls with
  | [] => 0
  | EventsRegister ev c :: rest =>
      (if bool_decide (ev = event) && callback_eqb c cb then 1 else 0)%Z
      + registrations event cb rest
  | EventsUnregister ev c :: rest =>
      (if bool_decide (ev = event) && callback_eqb c cb then -1 else 0)%Z
      + registrations event cb rest
  | _ :: rest => registrations event cb rest
  end%Z.

(** [ipython._current_cell_content = raw_cell], on the shell the hook holds. *)
Definition set_current_cell_content (raw_cell : pystr) (s : Session) : Session :=
  {| io := io s;
     cell_hook :=
       {| ip := match ip (cell_hook s) with
                | Some shell =>
                    Some {| user_ns := user_ns shell;
                            _current_cell_content := Some raw_cell |}
                | None => None
                end;
          active := active (cell_hook s) |};
     clock := clock s;
     ticks := ticks s |}.

(** [enhanced_transform], the wrapper [load_ipython_extension] installs
    around the shell's [transform_cell]: it stores the raw cell, then
    returns what the wrapped function returns. *)
Definition enhanced_transform {A} (original_transform : pystr -> A)
    (raw_cell : pystr) (s : Session) : A * Session :=
  (original_transform raw_cell, set_current_cell_content raw_cell s).

(** [load_ipython_extension(ipython)], for the shell the hook holds. *)
Definition load_ipython_extension (s : Session) : hosted unit :=
  let '(calls, r) := activate s in
  ([SetTransformCell;
    RegisterMagicFunction MagicOn (py "line") (py "cell_monitor_on");
    RegisterMagicFunction MagicOff (py "line") (py "cell_monitor_off");
    RegisterMagicFunction MagicStatus (py "line") (py "cell_monitor_status")]
     ++ calls, r).

(** [unload_ipython_extension(ipython)] *)
Definition unload_ipython_extension (s : Session) : hosted unit := deactivate s.

(** The globals right after their construction at import: a fresh
    [output_capture], and a [cell_hook] holding what [get_ipython()]
    returned. *)
Definition module_globals (shell : option Shell) (out err : nat)
    (clock : nat -> float) : Session :=
  {| io := initial_world out err;
     cell_hook := {| ip := shell; active := false |};
     clock := clock;
     ticks := 0 |}.

Definition NOT_RUNNING : pystr := py "Not running in IPython/Jupyter environment".

(** Importing the module: the globals, then the guarded auto-load, whose
    bare [except] turns any exception into a printed notice. *)
Definition import_module (shell : option Shell) (out err : nat)
    (clock : nat -> float) : hosted unit :=
  let s := module_globals shell out err clock in
  match shell with
  | None => ([], Done tt s)
  | Some _ =>
      match load_ipython_extension s with
      | (calls, Raised _ s') => (calls, emit (print NOT_RUNNING) s')
      | r => r
      end
  end.


(** How many host calls are of a kind. *)
Definition count_calls (p : host_call -> bool) (calls : list host_call) : nat :=
  length (List.filter p calls).

Definition is_set_transform (c : host_call) : bool :=
  match c with SetTransformCell => true | _ => false end.

Definition is_register_magic (c : host_call) : bool :=
  match c with RegisterMagicFunction _ _ _ => true | _ => false end.

Definition is_events_register (c : host_call) : bool :=
  match c with EventsRegister _ _ => true | _ => false end.

(** Two output states wired alike: same installed targets, same snapshot,
    same flag. *)
Definition same_wiring (w w' : World) : Prop :=
  sys_stdout w' = sys_stdout w
  /\ sys_stderr w' = sys_stderr w
  /\ original_stdout (output_capture w') = original_stdout (output_capture w)
  /\ original_stderr (output_capture w') = original_stderr (output_capture w)
  /\ is_capturing (output_capture w') = is_capturing (output_capture w).

(** The two-state machine of the monitor: on, off. *)
Definition flag_after (commands : list command) (flag : bool) : bool :=
  fold_left
    (fun b c => match c with TurnOn => true | TurnOff => false | ShowStatus => b end)
    commands flag.

(** [load_ipython_extension] called [n] times in a row. *)
Fixpoint load_times (n : nat) (s : Session) : hosted unit :=
  match n with
  | O => ([], Done tt s)
  | S n' =>
      match load_ipython_extension s with
      | (calls, Done _ s') =>
          let '(calls', r) := load_times n' s' in (calls ++ calls', r)
      | (calls, r) => (calls, r)
      end
  end.

(** What a real stream observes when the lines are printed to it. *)
Definition printed_on (h : nat) (lines : list pystr) : list event :=
  flat_map (fun line => [Wrote h line; Wrote h [LF]]) lines.

(** What holds of the tee in a process loaded with the streams [out] and
    [err], whatever is called on it. *)
Definition fed_from (out : nat) (w : World) : Prop :=
  (original_stdout (output_capture w) = NoTarget
   \/ original_stdout (output_capture w) = Real out)
  /\ (is_capturing (output_capture w) = true ->
      original_stdout (output_capture w) = Real out)
  /\ (is_capturing (output_capture w) = false -> sys_stdout w = Real out)
  /\ Forall (fed_by_tee out) (trace w).

(** Is one of the commands an on command? *)
Definition turns_on (commands : list command) : bool :=
  existsb (fun c => match c with TurnOn => true | _ => false end) commands.

(** [unload_ipython_extension] then [load_ipython_extension], [n] times. *)
Fixpoint reload_times (n : nat) (s : Session) : hosted unit :=
  match n with
  | O => ([], Done tt s)
  | S n' =>
      match unload_ipython_extension s with
      | (calls1, Done _ s1) =>
          match load_ipython_extension s1 with
          | (calls2, Done _ s2) =>
              let '(calls', r) := reload_times n' s2 in
              (calls1 ++ calls2 ++ calls', r)
          | (calls2, r) => (calls1 ++ calls2, r)
          end
      | (calls1, r) => (calls1, r)
      end
  end.

(** * Properties *)

(** ** Text *)

Lemma strip_nil : strip [] = [].
Proof. reflexivity. Qed.

Lemma write_guard (text : pystr) :
  truthy text && truthy (strip text) = truthy (strip text).
Proof. destruct text as [|c text]; reflexivity. Qed.

Lemma split_not_nil (sep : N) (s : pystr) : split sep s <> [].
Proof.
  destruct s as [|c s]; simpl; [discriminate|].
  destruct (c =? sep)%N; [discriminate|].
  destruct (split sep s); discriminate.
Qed.

(** ** The tee *)

Lemma world_eta (w : World) :
  {| sys_stdout := sys_stdout w; sys_stderr := sys_stderr w;
     output_capture := output_capture w; trace := trace w |} = w.
Proof. destruct w; reflexivity. Qed.

Lemma capture_eta (c : CellOutputCapture) :
  {| original_stdout := original_stdout c; original_stderr := original_stderr c;
     captured_output := captured_output c; is_capturing := is_capturing c |} = c.
Proof. destruct c; reflexivity. Qed.

Lemma after_writes_nil (w : World) : after_writes w [] = w.
Proof.
  unfold after_writes; simpl. rewrite !app_nil_r, capture_eta. apply world_eta.
Qed.

Lemma write_blank (w : World) (text : pystr) :
  truthy (strip text) = false -> write w text = Some w.
Proof. intros Hb. unfold write. rewrite write_guard, Hb. reflexivity. Qed.

Lemma write_kept (w : World) (text : pystr) :
  truthy (strip text) = true ->
  original_stdout (output_capture w) <> Self ->
  write w text = Some (after_writes w [text]).
Proof.
  intros Hk Hself. unfold write, after_writes, kept. simpl.
  rewrite write_guard, Hk. simpl.
  destruct (original_stdout (output_capture w)) eqn:Ht; simpl.
  - rewrite app_nil_r. reflexivity.
  - congruence.
  - reflexivity.
Qed.

Lemma after_writes_cons_kept (w : World) (text : pystr) (rest : list pystr) :
  truthy (strip text) = true ->
  after_writes (after_writes w [text]) rest = after_writes w (text :: rest).
Proof.
  intros Hk. unfold after_writes, kept. simpl. rewrite Hk. simpl.
  rewrite <- !app_assoc. reflexivity.
Qed.

Lemma after_writes_cons_blank (w : World) (text : pystr) (rest : list pystr) :
  truthy (strip text) = false ->
  after_writes w rest = after_writes w (text :: rest).
Proof. intros Hb. unfold after_writes, kept. simpl. rewrite Hb. reflexivity. Qed.

(** Writing never hangs unless the snapshotted primary target is the tee
    itself, and then leaves exactly the kept chunks behind. *)
Lemma writes_after_writes (chunks : list pystr) (w : World) :
  original_stdout (output_capture w) <> Self ->
  writes w chunks = Some (after_writes w chunks).
Proof.
  revert w. induction chunks as [|text rest IH]; intros w Hself.
  - simpl. rewrite after_writes_nil. reflexivity.
  - simpl. destruct (truthy (strip text)) eqn:Hk.
    + rewrite write_kept by assumption.
      rewrite IH by (simpl; assumption).
      rewrite after_writes_cons_kept by assumption. reflexivity.
    + rewrite write_blank by assumption.
      rewrite IH by assumption.
      rewrite <- after_writes_cons_blank by assumption. reflexivity.
Qed.

Lemma start_capture_active (w : World) :
  is_capturing (output_capture w) = true -> start_capture w = w.
Proof. intros Ha. unfold start_capture. rewrite Ha. reflexivity. Qed.

Lemma stop_capture_original (w : World) :
  original_stdout (output_capture (fst (stop_capture w)))
  = original_stdout (output_capture w).
Proof. unfold stop_capture. destruct (is_capturing (output_capture w)); reflexivity. Qed.

Lemma run_call_flag (w : World) (c : call_kind) :
  is_capturing (output_capture (run_call w c))
  = match c with Start => true | Stop => false end.
Proof.
  destruct c; unfold run_call, start_capture, stop_capture;
    destruct (is_capturing (output_capture w)) eqn:Ha; simpl; auto.
Qed.

(** After any sequence of calls the flag is decided by the last call alone,
    and by the starting state when there was no call. *)
Lemma run_calls_flag (calls : list call_kind) (w : World) :
  is_capturing (output_capture (run_calls w calls))
  = match last calls with
    | Some Start => true
    | Some Stop => false
    | None => is_capturing (output_capture w)
    end.
Proof.
  induction calls as [|c calls _] using rev_ind.
  - reflexivity.
  - unfold run_calls. rewrite fold_left_app. simpl.
    rewrite run_call_flag, last_snoc. destruct c; reflexivity.
Qed.

Lemma run_tee_call_consistent (w : World) (c : tee_call) :
  tee_consistent w ->
  exists w', run_tee_call w c = Some w' /\ tee_consistent w'.
Proof.
  intros [Ho Hs]. destruct c as [| |text]; simpl.
  - eexists; split; [reflexivity|]. unfold start_capture, tee_consistent.
    destruct (is_capturing (output_capture w)) eqn:Ha; simpl.
    + split; [assumption|congruence].
    + split; [auto|discriminate].
  - eexists; split; [reflexivity|]. unfold stop_capture, tee_consistent.
    destruct (is_capturing (output_capture w)) eqn:Ha; simpl; auto.
  - destruct (truthy (strip text)) eqn:Hk.
    + rewrite write_kept by assumption.
      eexists; split; [reflexivity|]. unfold after_writes, tee_consistent. simpl. auto.
    + rewrite write_blank by assumption.
      eexists; split; [reflexivity|]. split; assumption.
Qed.

(** From the state the module is loaded in, every sequence of calls on the
    tee returns, and leaves a consistent state. *)
Lemma run_tee_calls_return (calls : list tee_call) (out err : nat) :
  exists w, run_tee_calls (initial_world out err) calls = Some w /\ tee_consistent w.
Proof.
  assert (Hgen : forall w, tee_consistent w ->
            exists w', run_tee_calls w calls = Some w' /\ tee_consistent w').
  { induction calls as [|c rest IH]; intros w Hw; simpl.
    - eauto.
    - destruct (run_tee_call_consistent w c Hw) as (w1 & -> & Hw1). auto. }
  apply Hgen. unfold tee_consistent. simpl. split; [|intros _]; discriminate.
Qed.

(** C2, as stated, fails: after [start], [write("hello")], [stop], the text is
    returned but the sink still holds the chunk. *)
Lemma stop_capture_keeps_sink :
  (fun w => (snd (stop_capture w),
             captured_output (output_capture (fst (stop_capture w)))))
    <$> write (start_capture sample_world) (py "hello")
  = Some (py "hello", [py "hello"]).
Proof. vm_compute. reflexivity. Qed.

(** C2, amended: in an active session [stop] returns the accumulated sink
    content and leaves the sink as it is; the sink is emptied by the next
    [start]. *)
Theorem stop_capture_returns_sink (w : World) :
  is_capturing (output_capture w) = true ->
  snd (stop_capture w) = join (captured_output (output_capture w))
  /\ captured_output (output_capture (fst (stop_capture w)))
     = captured_output (output_capture w)
  /\ captured_output (output_capture (start_capture (fst (stop_capture w)))) = [].
Proof.
  intros Ha. unfold stop_capture. rewrite Ha. simpl.
  repeat split; reflexivity.
Qed.

Lemma stop_capture_returns_sink_witness :
  is_capturing (output_capture capturing_world) = true
  /\ snd (stop_capture capturing_world) = py "hello"
  /\ captured_output (output_capture (fst (stop_capture capturing_world)))
     = [py "hello"]
  /\ captured_output
       (output_capture (start_capture (fst (stop_capture capturing_world)))) = [].
Proof.
  split; [reflexivity|].
  exact (stop_capture_returns_sink capturing_world eq_refl).
Defined.

(** C3: in one capture session, entered from an inactive state whose primary
    target is not the tee itself, every [write] returns, and the following
    [stop] returns the concatenation, in arrival order, of the chunks that are
    not blank; blank chunks are neither buffered nor forwarded. *)
Theorem stop_returns_kept_chunks (w : World) (chunks : list pystr) :
  is_capturing (output_capture w) = false ->
  sys_stdout w <> Self ->
  exists w',
    writes (start_capture w) chunks = Some w'
    /\ snd (stop_capture w') = join (kept chunks)
    /\ captured_output (output_capture w') = kept chunks
    /\ trace w' = trace w ++ flat_map (forwarded (sys_stdout w)) (kept chunks).
Proof.
  intros Hi Hself.
  exists (after_writes (start_capture w) chunks).
  unfold start_capture. rewrite Hi. simpl.
  split.
  - apply writes_after_writes. simpl. assumption.
  - unfold stop_capture, after_writes. simpl. repeat split; reflexivity.
Qed.

Lemma stop_returns_kept_chunks_witness :
  is_capturing (output_capture sample_world) = false
  /\ sys_stdout sample_world <> Self
  /\ exists w',
       writes (start_capture sample_world) [py ""; py "   "; py "hello"] = Some w'
       /\ snd (stop_capture w') = join (kept [py ""; py "   "; py "hello"])
       /\ captured_output (output_capture w') = kept [py ""; py "   "; py "hello"]
       /\ trace w'
          = trace sample_world
            ++ flat_map (forwarded (sys_stdout sample_world))
                 (kept [py ""; py "   "; py "hello"]).
Proof.
  split; [reflexivity|]. split; [discriminate|].
  apply (stop_returns_kept_chunks sample_world); [reflexivity|discriminate].
Defined.

(** The instances the specification lists: empty and blank chunks leave no
    mark, and ["hello"] comes back as it is. *)
Example write_blank_then_stop :
  (fun w => snd (stop_capture w))
    <$> writes (start_capture sample_world) [py ""; py "   "]
  = Some [].
Proof. vm_compute. reflexivity. Qed.

Example write_hello_then_stop :
  (fun w => snd (stop_capture w))
    <$> writes (start_capture sample_world) [py "hello"]
  = Some (py "hello").
Proof. vm_compute. reflexivity. Qed.

(** C4: from the initial state, after any sequence of [start]/[stop] calls,
    the session is active exactly when the sequence ends with a [start]. *)
Theorem active_iff_last_call_is_start (out err : nat) (calls : list call_kind) :
  is_capturing (output_capture (run_calls (initial_world out err) calls)) = true
  <-> last calls = Some Start.
Proof.
  rewrite run_calls_flag. simpl.
  destruct (last calls) as [[|]|]; split; intros H; congruence.
Qed.

(** C5: [start] on an active session changes nothing; on an inactive one it
    snapshots the two current targets, empties the sink, installs the tee as
    both targets and marks the session active. So a second [start] in a row
    is a no-op, and the snapshot still holds the targets displaced by the
    first one. *)
Theorem start_capture_contract (w : World) :
  (is_capturing (output_capture w) = true -> start_capture w = w)
  /\ (is_capturing (output_capture w) = false ->
      start_capture w
      = {| sys_stdout := Self;
           sys_stderr := Self;
           output_capture :=
             {| original_stdout := sys_stdout w;
                original_stderr := sys_stderr w;
                captured_output := [];
                is_capturing := true |};
           trace := trace w |}
      /\ original_stdout (output_capture (start_capture (start_capture w)))
         = sys_stdout w
      /\ original_stderr (output_capture (start_capture (start_capture w)))
         = sys_stderr w)
  /\ start_capture (start_capture w) = start_capture w.
Proof.
  split; [apply start_capture_active|]. split.
  - intros Hi. unfold start_capture. rewrite Hi. simpl. repeat split; reflexivity.
  - apply start_capture_active. unfold start_capture.
    destruct (is_capturing (output_capture w)) eqn:Ha; simpl; auto.
Qed.

Lemma start_capture_contract_witness :
  start_capture capturing_world = capturing_world
  /\ start_capture sample_world
     = {| sys_stdout := Self;
          sys_stderr := Self;
          output_capture :=
            {| original_stdout := Real 1;
               original_stderr := Real 2;
               captured_output := [];
               is_capturing := true |};
          trace := [] |}.
Proof.
  split.
  - exact (proj1 (start_capture_contract capturing_world) eq_refl).
  - exact (proj1 (proj1 (proj2 (start_capture_contract sample_world)) eq_refl)).
Defined.

(** C6: [stop] on an inactive session returns the empty text and leaves the
    whole state, output targets included, as it was. *)
Theorem stop_capture_inactive (w : World) :
  is_capturing (output_capture w) = false -> stop_capture w = (w, []).
Proof. intros Hi. unfold stop_capture. rewrite Hi. reflexivity. Qed.

Lemma stop_capture_inactive_witness :
  is_capturing (output_capture sample_world) = false
  /\ stop_capture sample_world = (sample_world, []).
Proof.
  split; [reflexivity|]. exact (stop_capture_inactive sample_world eq_refl).
Defined.

(** C10: [write] never reads the active flag. A chunk that is not blank is
    buffered and forwarded to the snapshotted primary target whatever the
    flag says; [stop] keeps the snapshot, so chunks written after it pile up
    in the sink and reach the old target, until the next [start] empties the
    sink. *)
Theorem write_ignores_active_flag (w : World) (h : nat) (chunks : list pystr) :
  original_stdout (output_capture w) = Real h ->
  (forall text, truthy (strip text) = true ->
     write w text
     = Some {| sys_stdout := sys_stdout w;
               sys_stderr := sys_stderr w;
               output_capture :=
                 {| original_stdout := Real h;
                    original_stderr := original_stderr (output_capture w);
                    captured_output := captured_output (output_capture w) ++ [text];
                    is_capturing := is_capturing (output_capture w) |};
               trace := trace w ++ [Wrote h (realtime_copy text); Flushed h] |})
  /\ (is_capturing (output_capture w) = true ->
      exists w',
        writes (fst (stop_capture w)) chunks = Some w'
        /\ is_capturing (output_capture w') = false
        /\ captured_output (output_capture w')
           = captured_output (output_capture w) ++ kept chunks
        /\ trace w'
           = trace w
             ++ flat_map (fun c => [Wrote h (realtime_copy c); Flushed h]) (kept chunks)
        /\ captured_output (output_capture (start_capture w')) = []).
Proof.
  intros Ho. split.
  - intros text Hk. unfold write. rewrite write_guard, Hk, Ho. reflexivity.
  - intros Ha.
    exists (after_writes (fst (stop_capture w)) chunks).
    split.
    + apply writes_after_writes. rewrite stop_capture_original, Ho. discriminate.
    + unfold stop_capture. rewrite Ha. unfold after_writes, start_capture. simpl.
      rewrite Ho. simpl. repeat split; reflexivity.
Qed.

Lemma write_ignores_active_flag_witness :
  original_stdout (output_capture capturing_world) = Real 1
  /\ (fun w => (is_capturing (output_capture w), captured_output (output_capture w)))
       <$> writes (fst (stop_capture capturing_world)) [py "late"; py " "]
     = Some (false, [py "hello"; py "late"]).
Proof.
  split; [reflexivity|].
  destruct (proj2 (write_ignores_active_flag capturing_world 1 [py "late"; py " "] eq_refl)
              eq_refl) as (w' & Hw & Hf & Hs & _).
  rewrite Hw. simpl. rewrite Hf, Hs. reflexivity.
Defined.

(** ** The formatters *)

Lemma print_then {B} (text : pystr) (m : printed B) :
  (print text ;; m) = (text :: fst m, snd m).
Proof. unfold bind, print. destruct m; reflexivity. Qed.

Lemma bind_returned {A B} (out : list pystr) (a : A) (k : A -> printed B) :
  bind (out, inr a) k = (out ++ fst (k a), snd (k a)).
Proof. unfold bind. destruct (k a); reflexivity. Qed.

Lemma bind_raised {A B} (out : list pystr) (e : exn) (k : A -> printed B) :
  bind (out, inl e) k = (out, inl e).
Proof. reflexivity. Qed.

Lemma for_each_prints {A} (xs : list A) (body : A -> printed unit)
    (f : A -> pystr) :
  (forall x, body x = print (f x)) ->
  for_each xs body = (map f xs, inr tt).
Proof.
  intros Hbody. induction xs as [|x xs IH]; simpl.
  - reflexivity.
  - rewrite Hbody, print_then, IH. reflexivity.
Qed.

Lemma enumerate_length {A} (xs : list A) (start : Z) :
  length (enumerate start xs) = length xs.
Proof. revert start. induction xs; intros; simpl; auto. Qed.

Lemma enumerate_lookup {A} (xs : list A) (start : Z) (k : nat) (x : A) :
  xs !! k = Some x ->
  enumerate start xs !! k = Some ((start + Z.of_nat k)%Z, x).
Proof.
  revert start k. induction xs as [|y xs IH]; intros start k Hk.
  - discriminate.
  - destruct k as [|k]; simpl in *.
    + inversion Hk; subst. rewrite Z.add_0_r. reflexivity.
    + rewrite (IH _ _ Hk). f_equal. f_equal. lia.
Qed.

(** What [pre_run_print] prints: three banner lines, one numbered line per
    piece of the cell, three closing lines. *)
Lemma pre_run_print_lines (cell_content : pystr) :
  exists top bottom,
    length top = 3%nat /\ length bottom = 3%nat
    /\ pre_run_print cell_content
       = (top
          ++ map (fun p => numbered_line (fst p) (snd p))
               (enumerate 1 (split LF (strip cell_content)))
          ++ bottom,
          inr tt).
Proof.
  unfold pre_run_print.
  rewrite !print_then.
  rewrite (for_each_prints _ _ (fun p => numbered_line (fst p) (snd p)))
    by (intros [i line]; reflexivity).
  rewrite bind_returned, ?print_then. simpl fst. simpl snd.
  eexists [_; _; _], [_; _; _]. repeat split.
Qed.

Lemma format_2d_width (i : Z) : (2 <= length (format_2d i))%nat.
Proof.
  unfold format_2d, pad_left. rewrite length_app, length_replicate. lia.
Qed.

Lemma format_2d_shape (i : Z) :
  exists n, format_2d i = replicate n 32 ++ dec_Z i
            /\ ((2 <= length (dec_Z i))%nat -> n = 0%nat).
Proof.
  exists (2 - length (dec_Z i))%nat. split; [reflexivity|lia].
Qed.

(** C8: [pre_run_print] trims the cell, splits it at the line breaks, and
    prints, after its three banner lines, one line per piece: the piece
    behind its 1-based index, which is right-aligned in at least two
    columns. On ["a\nb\nc"] these are the three lines numbered [ 1], [ 2]
    and [ 3]. *)
Theorem pre_run_print_numbers_pieces :
  (forall cell_content : pystr,
     let pieces := split LF (strip cell_content) in
     let out := fst (pre_run_print cell_content) in
     snd (pre_run_print cell_content) = inr tt
     /\ length out = (3 + length pieces + 3)%nat
     /\ forall (k : nat) (piece : pystr),
          pieces !! k = Some piece ->
          out !! (3 + k)%nat
          = Some (Colors.BLUE ++ py "[" ++ format_2d (Z.of_nat k + 1) ++ py "] "
                    ++ piece ++ Colors.END))
  /\ (forall i : Z,
        (2 <= length (format_2d i))%nat
        /\ exists n, format_2d i = replicate n 32 ++ dec_Z i
                     /\ ((2 <= length (dec_Z i))%nat -> n = 0%nat))
  /\ take 3 (drop 3 (fst (pre_run_print (py "a" ++ [LF] ++ py "b" ++ [LF] ++ py "c"))))
     = [Colors.BLUE ++ py "[ 1] a" ++ Colors.END;
        Colors.BLUE ++ py "[ 2] b" ++ Colors.END;
        Colors.BLUE ++ py "[ 3] c" ++ Colors.END]
  /\ length (fst (pre_run_print (py "a" ++ [LF] ++ py "b" ++ [LF] ++ py "c"))) = 9%nat.
Proof.
  split; [|split; [|split]].
  - intros cell_content pieces out.
    destruct (pre_run_print_lines cell_content) as (top & bottom & Ht & Hb & Heq).
    subst out pieces. rewrite Heq. simpl fst. simpl snd.
    split; [reflexivity|]. split.
    + rewrite !length_app, length_map, enumerate_length. lia.
    + intros k piece Hk.
      rewrite <- Ht, lookup_app_r by lia.
      replace (length top + k - length top)%nat with k by lia.
      rewrite lookup_app_l
        by (rewrite length_map, enumerate_length; eapply lookup_lt_Some; eauto).
      rewrite list_lookup_fmap, (enumerate_lookup _ _ _ _ Hk). simpl.
      rewrite Z.add_comm. reflexivity.
  - intros i. split; [apply format_2d_width|apply format_2d_shape].
  - vm_compute. reflexivity.
  - vm_compute. reflexivity.
Qed.

Lemma post_run_print_lines (v : pyval) (t : float) (cell_content : pystr) :
  exists top bottom,
    forallb is_other_line top = true /\ forallb is_other_line bottom = true
    /\ post_run_print v t cell_content
       = match v with
         | VNone => (top ++ [no_value_line] ++ bottom, inr tt)
         | _ =>
             match py_str v with
             | inl e => (top, inl e)
             | inr s =>
                 (top ++ type_line v
                    :: (if truthy (strip (preview s)) then [preview_line (preview s)]
                        else [])
                    ++ bottom, inr tt)
             end
         end.
Proof.
  unfold post_run_print. rewrite !print_then. cbn [fst snd].
  eexists [_; _; _; _; _], [_; _; _].
  split; [|split]; cycle 2.
  - destruct v as [|n|x|s|cls outcome]; cbn [is_not_none];
      try destruct (py_str _) as [e|s0]; unfold call;
      rewrite ?bind_returned, ?bind_raised, ?print_then; cbn [fst snd];
      try destruct (truthy (strip (preview _))); unfold print, ret; cbn [fst snd app];
      reflexivity.
  - vm_compute. reflexivity.
  - vm_compute. reflexivity.
Qed.

Lemma starts_with_app (prefix rest : pystr) : starts_with prefix (prefix ++ rest) = true.
Proof.
  induction prefix as [|a prefix IH]; simpl; [reflexivity|].
  rewrite N.eqb_refl. exact IH.
Qed.

Lemma type_line_kind (v : pyval) :
  is_type_line (type_line v) = true
  /\ is_preview_line (type_line v) = false
  /\ is_no_value_line (type_line v) = false.
Proof.
  split; [|split; vm_compute; reflexivity].
  unfold is_type_line, type_line.
  rewrite !app_assoc, <- (app_assoc _ (type_name v) _). apply starts_with_app.
Qed.


Lemma no_value_line_kind :
  is_no_value_line no_value_line = true
  /\ is_type_line no_value_line = false
  /\ is_preview_line no_value_line = false.
Proof. repeat split; vm_compute; reflexivity. Qed.


(** A text that ends with a character which is not white space does not
    trim to nothing. *)
Lemma lstrip_snoc (s : pystr) (c : N) :
  is_space c = false -> exists s', lstrip (s ++ [c]) = s' ++ [c].
Proof.
  intros Hc. induction s as [|a s IH]; simpl.
  - rewrite Hc. exists []. reflexivity.
  - destruct (is_space a).
    + exact IH.
    + exists (a :: s). reflexivity.
Qed.

Lemma strip_snoc_truthy (s : pystr) (c : N) :
  is_space c = false -> truthy (strip (s ++ [c])) = true.
Proof.
  intros Hc. unfold strip, rstrip.
  destruct (lstrip_snoc s c Hc) as [s' ->].
  rewrite rev_app_distr. simpl. rewrite Hc. simpl.
  destruct (rev (rev s')); reflexivity.
Qed.

Lemma preview_short (s : pystr) : (length s <= 200)%nat -> preview s = s.
Proof.
  intros H. unfold preview.
  destruct (Nat.ltb_spec 200 (length s)); [lia|reflexivity].
Qed.

Lemma preview_long (s : pystr) :
  (200 < length s)%nat ->
  preview s = take 200 s ++ py "..."
  /\ length (preview s) = 203%nat
  /\ truthy (strip (preview s)) = true.
Proof.
  intros H. unfold preview.
  destruct (Nat.ltb_spec 200 (length s)); [|lia].
  split; [reflexivity|]. split.
  - rewrite length_app, length_take. change (length (py "...")) with 3%nat. lia.
  - change (py "...") with ([46; 46] ++ [46]). rewrite app_assoc.
    apply strip_snoc_truthy. reflexivity.
Qed.




(** The instances the specification lists: [None], [42], and a string of 250
    characters. *)
Example post_run_print_none :
  List.filter (fun l => is_type_line l || is_no_value_line l)
    (fst (post_run_print VNone 1.5%float (py "x")))
  = [Colors.YELLOW ++ ICON_RESULT ++ py " No return value" ++ Colors.END].
Proof. vm_compute. reflexivity. Qed.

Example post_run_print_long_string :
  List.filter is_preview_line
    (fst (post_run_print (VStr (replicate 250 120)) 1.5%float (py "x")))
  = [Colors.YELLOW ++ ICON_PREVIEW ++ py " Result preview: "
       ++ replicate 200 120 ++ py "..." ++ Colors.END].
Proof. vm_compute. reflexivity. Qed.


Lemma int_str_bound_eq : int_str_bound = (10 ^ INT_MAX_STR_DIGITS)%Z.
Proof. vm_compute. reflexivity. Qed.

(** The conversion of an [int] raises exactly from [10 ** 4300] on in
    magnitude, and gives the decimal digits below. *)
Lemma int_str_outcome (n : Z) :
  ((Z.abs n < 10 ^ INT_MAX_STR_DIGITS)%Z /\ int_str n = inr (dec_Z n))
  \/ ((10 ^ INT_MAX_STR_DIGITS <= Z.abs n)%Z
      /\ int_str n = inl (UserException (py "ValueError"))).
Proof.
  unfold int_str. rewrite <- int_str_bound_eq.
  destruct (Z.leb_spec int_str_bound (Z.abs n)); [right|left]; split; auto.
Qed.

(** What [post_run_print] has printed when the conversion of the result
    raises: the banner and the two statistics lines. *)
Lemma post_run_print_raising (v : pyval) (t : float) (cell_content : pystr)
    (e : exn) :
  py_str v = inl e ->
  post_run_print v t cell_content
  = ([LF :: Colors.YELLOW ++ Colors.BOLD ++ rule;
      ICON_POST ++ py " POST-RUN: Execution Complete";
      rule ++ Colors.END;
      Colors.YELLOW ++ ICON_CLOCK ++ py "  Execution time: "
        ++ PyFloat.format_3f t ++ py " seconds" ++ Colors.END;
      Colors.YELLOW ++ ICON_LINES ++ py " Lines executed: "
        ++ dec_Z (Z.of_nat (length (split LF (strip cell_content))))
        ++ Colors.END],
     inl e).
Proof.
  intros He. unfold post_run_print. rewrite !print_then. cbn [fst snd].
  destruct v as [|n|x|s|cls outcome]; try discriminate He;
    cbn [is_not_none]; rewrite He; unfold call; rewrite !bind_raised;
    reflexivity.
Qed.


(** At the limit: the last [int] that converts has 4300 digits, and on the
    next one [post_run_print] raises. *)
Example post_run_print_huge_int :
  py_str (VInt (10 ^ 4300 - 1)) = inr (dec_Z (10 ^ 4300 - 1))
  /\ snd (post_run_print (VInt (10 ^ 4300)) 1.5%float (py "x"))
     = inl (UserException (py "ValueError")).
Proof.
  split.
  - unfold py_str, int_str.
    replace (int_str_bound <=? Z.abs (10 ^ 4300 - 1))%Z with false
      by (vm_compute; reflexivity).
    reflexivity.
  - assert (He : py_str (VInt (10 ^ 4300)) = inl (UserException (py "ValueError"))).
    { unfold py_str, int_str.
      replace (int_str_bound <=? Z.abs (10 ^ 4300))%Z with true
        by (vm_compute; reflexivity).
      reflexivity. }
    pose proof (post_run_print_raising _ 1.5%float (py "x") _ He) as Hrun.
    apply (f_equal snd) in Hrun. exact Hrun.
Qed.

(** ** The hook *)




(** [pre_execute] does record its reading of the clock under the key. *)
Lemma pre_execute_records_start :
  namespace executed_session !! CELL_START_TIME = Some (VFloat 100%float)
  /\ namespace executed_session !! UNDERSCORE = Some (VInt 42).
Proof. split; vm_compute; reflexivity. Qed.

(** C1 fails on the code: with the start time 100.0 recorded under
    ['_cell_start_time'] and the result 42 stored under ['_'], the clock
    reading 105.0 and then 105.25, [post_execute] calls the formatter with no
    result and 0.25 seconds. Read by key, the namespace gives 42 and 5.25
    seconds, and the two summaries differ. *)
Theorem post_execute_on_recorded_start :
  post_execute executed_session
  = emit (post_run_print VNone 0.25%float (py "6 * 7"))
      (reporting_session executed_session)
  /\ post_execute_by_key executed_session
     = emit (post_run_print (VInt 42) 5.25%float (py "6 * 7"))
         (reporting_session executed_session)
  /\ post_execute executed_session <> post_execute_by_key executed_session.
Proof.
  assert (Hcode : post_execute executed_session
                  = emit (post_run_print VNone 0.25%float (py "6 * 7"))
                      (reporting_session executed_session))
    by (vm_compute; reflexivity).
  assert (Hkey : post_execute_by_key executed_session
                 = emit (post_run_print (VInt 42) 5.25%float (py "6 * 7"))
                     (reporting_session executed_session))
    by (vm_compute; reflexivity).
  split; [exact Hcode|]. split; [exact Hkey|].
  rewrite Hcode, Hkey. vm_compute. intros H. discriminate H.
Qed.

(** * Further properties *)

(** ** The tee: wiring, flush, blank chunks *)

Lemma same_wiring_refl (w : World) : same_wiring w w.
Proof. unfold same_wiring. auto. Qed.

Lemma same_wiring_trans (w1 w2 w3 : World) :
  same_wiring w1 w2 -> same_wiring w2 w3 -> same_wiring w1 w3.
Proof.
  unfold same_wiring. intros (A1 & A2 & A3 & A4 & A5) (B1 & B2 & B3 & B4 & B5).
  repeat split; congruence.
Qed.

Lemma same_wiring_consistent (w w' : World) :
  same_wiring w w' -> tee_consistent w -> tee_consistent w'.
Proof.
  unfold same_wiring, tee_consistent.
  intros (A1 & A2 & A3 & A4 & A5) [Ho Hs]. rewrite A1, A3, A5. auto.
Qed.

Lemma after_writes_wiring (w : World) (chunks : list pystr) :
  same_wiring w (after_writes w chunks).
Proof. unfold same_wiring, after_writes. simpl. auto. Qed.

(** X1: a capture session hands the streams back. From an inactive state,
    [start], any writes, then [stop] leave both process-wide targets as they
    were before [start], and the session inactive. *)
Theorem capture_round_trip_restores_targets (w : World) (chunks : list pystr) :
  is_capturing (output_capture w) = false ->
  sys_stdout w <> Self ->
  exists w',
    writes (start_capture w) chunks = Some w'
    /\ sys_stdout (fst (stop_capture w')) = sys_stdout w
    /\ sys_stderr (fst (stop_capture w')) = sys_stderr w
    /\ is_capturing (output_capture (fst (stop_capture w'))) = false.
Proof.
  intros Hi Hself.
  exists (after_writes (start_capture w) chunks). split.
  - apply writes_after_writes. unfold start_capture. rewrite Hi. simpl. assumption.
  - unfold stop_capture, after_writes, start_capture. rewrite Hi. simpl. auto.
Qed.

Lemma capture_round_trip_restores_targets_witness :
  is_capturing (output_capture sample_world) = false
  /\ sys_stdout sample_world <> Self
  /\ exists w',
       writes (start_capture sample_world) [py "a"; py " "] = Some w'
       /\ sys_stdout (fst (stop_capture w')) = sys_stdout sample_world
       /\ sys_stderr (fst (stop_capture w')) = sys_stderr sample_world
       /\ is_capturing (output_capture (fst (stop_capture w'))) = false.
Proof.
  split; [reflexivity|]. split; [discriminate|].
  apply (capture_round_trip_restores_targets sample_world); [reflexivity|discriminate].
Defined.

Lemma fed_from_step (out : nat) (w : World) (c : stream_call) :
  fed_from out w ->
  exists w', run_stream_call w c = Some w' /\ fed_from out w'.
Proof.
  intros (Ho & Ha & Hi & Ht).
  assert (Hns : original_stdout (output_capture w) <> Self)
    by (destruct Ho as [-> | ->]; discriminate).
  destruct c as [[| |text]|]; simpl.
  - eexists; split; [reflexivity|]. unfold start_capture, fed_from.
    destruct (is_capturing (output_capture w)) eqn:Hc; simpl;
      repeat split; auto; try congruence; intros H; discriminate H.
  - eexists; split; [reflexivity|]. unfold stop_capture, fed_from.
    destruct (is_capturing (output_capture w)) eqn:Hc; simpl;
      repeat split; auto; try congruence; intros H; discriminate H.
  - destruct (truthy (strip text)) eqn:Hk.
    + rewrite write_kept by assumption.
      eexists; split; [reflexivity|]. unfold after_writes, fed_from, kept. simpl.
      rewrite Hk. simpl. repeat split; auto.
      rewrite app_nil_r. apply Forall_app_2; [assumption|].
      destruct Ho as [-> | ->]; simpl; [constructor|].
      constructor; [right; exists text; auto|].
      constructor; [left; reflexivity|constructor].
    + rewrite write_blank by assumption.
      eexists; split; [reflexivity|]. repeat split; auto.
  - unfold flush. destruct Ho as [Ho | Ho]; rewrite Ho.
    + eexists; split; [reflexivity|]. repeat split; auto.
    + eexists; split; [reflexivity|]. unfold fed_from. simpl.
      repeat split; auto.
      apply Forall_app_2; [assumption|].
      constructor; [left; reflexivity|constructor].
Qed.

(** X2: from module load in a process whose targets are [out] and [err],
    every sequence of [start], [stop], [write] and [flush] calls returns,
    and all the tee ever sends goes to the primary stream [out]: flushes,
    and the coloured copies of chunks that are not blank. Nothing is sent to
    [err], although the tee stands in for it too. *)
Theorem tee_feeds_primary_only (out err : nat) (calls : list stream_call) :
  exists w,
    run_stream_calls (initial_world out err) calls = Some w
    /\ Forall (fed_by_tee out) (trace w).
Proof.
  assert (Hgen : forall w, fed_from out w ->
            exists w', run_stream_calls w calls = Some w' /\ fed_from out w').
  { induction calls as [|c rest IH]; intros w Hw; simpl.
    - eauto.
    - destruct (fed_from_step out w c Hw) as (w1 & -> & Hw1). auto. }
  destruct (Hgen (initial_world out err)) as (w & Hrun & Hw).
  - unfold fed_from. simpl. repeat split; auto. intros H; discriminate H.
  - exists w. split; [assumption|]. apply Hw.
Qed.

Lemma lstrip_blank (s : pystr) : forallb is_space s = true -> lstrip s = [].
Proof.
  induction s as [|a s IH]; simpl; [reflexivity|].
  intros H. apply andb_prop in H as [Ha Hs]. rewrite Ha. auto.
Qed.

Lemma lstrip_head (s : pystr) (b : N) (rest : pystr) :
  lstrip s = b :: rest -> is_space b = false.
Proof.
  induction s as [|a s IH]; simpl; [discriminate|].
  destruct (is_space a) eqn:Ha; [exact IH|].
  intros H. inversion H; subst. exact Ha.
Qed.

Lemma lstrip_not_blank (s : pystr) :
  forallb is_space s = false -> exists a rest, lstrip s = a :: rest.
Proof.
  induction s as [|a s IH]; simpl; [discriminate|].
  destruct (is_space a) eqn:Ha; simpl; [exact IH|eauto].
Qed.

Lemma lstrip_clean (a : N) (s : pystr) :
  is_space a = false -> lstrip (a :: s) = a :: s.
Proof. intros Ha. simpl. rewrite Ha. reflexivity. Qed.

(** The shape of a trimmed text that is not blank: it starts and ends with a
    character that is not white space. *)
Lemma strip_not_blank (s : pystr) :
  forallb is_space s = false ->
  exists a u v b,
    strip s = a :: u /\ strip s = v ++ [b]
    /\ is_space a = false /\ is_space b = false.
Proof.
  intros Hs. unfold strip, rstrip.
  destruct (lstrip_not_blank s Hs) as (a & rest & Hl).
  pose proof (lstrip_head _ _ _ Hl) as Ha. rewrite Hl.
  simpl rev.
  destruct (lstrip_snoc (rev rest) a Ha) as (s' & Hs').
  destruct (lstrip (rev rest ++ [a])) as [|b t] eqn:Ht.
  - destruct s'; discriminate Hs'.
  - pose proof (lstrip_head _ _ _ Ht) as Hb.
    exists a, (rev s'), (rev t), b. repeat split; auto.
    rewrite Hs', rev_app_distr. reflexivity.
Qed.

Lemma strip_blank (s : pystr) : forallb is_space s = true -> strip s = [].
Proof.
  intros Hs. unfold strip, rstrip. rewrite (lstrip_blank s Hs). reflexivity.
Qed.

(** A chunk passes the filter of [write] exactly when one of its characters
    is not white space. *)
Lemma truthy_strip (s : pystr) : truthy (strip s) = negb (forallb is_space s).
Proof.
  destruct (forallb is_space s) eqn:Hs.
  - rewrite (strip_blank s Hs). reflexivity.
  - destruct (strip_not_blank s Hs) as (a & u & _ & _ & -> & _). reflexivity.
Qed.

Lemma strip_clean (t : pystr) (a b : N) (u v : pystr) :
  t = a :: u -> t = v ++ [b] -> is_space a = false -> is_space b = false ->
  strip t = t.
Proof.
  intros Hh Hl Ha Hb. unfold strip, rstrip.
  rewrite Hh, (lstrip_clean a u Ha), <- Hh, Hl, rev_app_distr. simpl.
  rewrite Hb. simpl. rewrite rev_involutive. reflexivity.
Qed.

Lemma strip_idempotent (s : pystr) : strip (strip s) = strip s.
Proof.
  destruct (forallb is_space s) eqn:Hs.
  - rewrite (strip_blank s Hs). reflexivity.
  - destruct (strip_not_blank s Hs) as (a & u & v & b & Hhead & Hlast & Ha & Hb).
    exact (strip_clean _ a b u v Hhead Hlast Ha Hb).
Qed.

Lemma strip_trimmed (s : pystr) : trimmed (strip s).
Proof.
  unfold trimmed. destruct (forallb is_space s) eqn:Hs.
  - rewrite (strip_blank s Hs). split.
    + intros a rest H. discriminate H.
    + intros front b H. destruct front; discriminate H.
  - destruct (strip_not_blank s Hs) as (a & u & v & b & Hhead & Hlast & Ha & Hb).
    split.
    + intros a' rest H. rewrite Hhead in H. inversion H; subst. exact Ha.
    + intros front b' H. rewrite Hlast in H.
      apply app_inj_tail in H as [_ ->]. exact Hb.
Qed.

(** X3: [write] drops a chunk exactly when all its characters are white
    space (the empty chunk included): the state is then untouched. Any other
    chunk is appended to the sink as it is, blanks at its ends included. *)
Theorem write_drops_exactly_blank (w : World) (text : pystr) :
  (forallb is_space text = true -> write w text = Some w)
  /\ (forallb is_space text = false ->
      original_stdout (output_capture w) <> Self ->
      exists w',
        write w text = Some w'
        /\ captured_output (output_capture w')
           = captured_output (output_capture w) ++ [text]).
Proof.
  split.
  - intros Hb. apply write_blank. rewrite truthy_strip, Hb. reflexivity.
  - intros Hn Hself. exists (after_writes w [text]). split.
    + apply write_kept; [|assumption]. rewrite truthy_strip, Hn. reflexivity.
    + unfold after_writes, kept. simpl. rewrite truthy_strip, Hn. reflexivity.
Qed.

Lemma write_drops_exactly_blank_witness :
  write capturing_world [32; 9; LF] = Some capturing_world
  /\ exists w',
       write capturing_world (py " a ") = Some w'
       /\ captured_output (output_capture w') = [py "hello"; py " a "].
Proof.
  split.
  - exact (proj1 (write_drops_exactly_blank capturing_world [32; 9; LF]) eq_refl).
  - apply (proj2 (write_drops_exactly_blank capturing_world (py " a ")) eq_refl).
    discriminate.
Defined.

Lemma print_out_through_tee (w : World) (text : pystr) :
  sys_stdout w = Self ->
  original_stdout (output_capture w) <> Self ->
  print_out text w = write w text.
Proof.
  intros Hs Ho. unfold print_out. rewrite Hs.
  destruct (truthy (strip text)) eqn:Hk.
  - rewrite write_kept by assumption. apply write_blank. reflexivity.
  - rewrite write_blank by assumption. apply write_blank. reflexivity.
Qed.

Lemma print_all_through_tee (texts : list pystr) (w : World) :
  sys_stdout w = Self ->
  original_stdout (output_capture w) <> Self ->
  print_all texts w = writes w texts.
Proof.
  revert w. induction texts as [|text rest IH]; intros w Hs Ho; simpl.
  - reflexivity.
  - rewrite print_out_through_tee by assumption.
    destruct (truthy (strip text)) eqn:Hk.
    + rewrite write_kept by assumption. apply IH; assumption.
    + rewrite write_blank by assumption. apply IH; assumption.
Qed.

(** X4: while the tee is installed, the line ends of [print] are lost. Each
    [print(text)] reaches the tee as [write(text)] and [write("\n")], and the
    second is dropped as blank: the sink gains the texts that are not blank
    with nothing between them, the old stream gets one coloured copy of each,
    and [stop] returns them run together. *)
Theorem print_through_tee_loses_line_ends (w : World) (h : nat) (texts : list pystr) :
  sys_stdout w = Self ->
  original_stdout (output_capture w) = Real h ->
  is_capturing (output_capture w) = true ->
  exists w',
    print_all texts w = Some w'
    /\ captured_output (output_capture w')
       = captured_output (output_capture w) ++ kept texts
    /\ trace w'
       = trace w
         ++ flat_map (fun t => [Wrote h (realtime_copy t); Flushed h]) (kept texts)
    /\ snd (stop_capture w')
       = join (captured_output (output_capture w)) ++ join (kept texts).
Proof.
  intros Hs Ho Ha.
  exists (after_writes w texts). split.
  - rewrite print_all_through_tee by (rewrite ?Ho; auto; discriminate).
    apply writes_after_writes. rewrite Ho. discriminate.
  - unfold stop_capture, after_writes. simpl. rewrite Ha, Ho. simpl.
    repeat split; auto. unfold join. apply concat_app.
Qed.

Lemma print_through_tee_loses_line_ends_witness :
  (fun w => snd (stop_capture w))
    <$> print_all [py "a"; py "b"] (start_capture sample_world)
  = Some (py "ab").
Proof.
  destruct (print_through_tee_loses_line_ends (start_capture sample_world) 1
              [py "a"; py "b"] eq_refl eq_refl eq_refl) as (w' & -> & _ & _ & Hstop).
  simpl. rewrite Hstop. reflexivity.
Defined.

(** ** The formatters: what the reports keep of their input *)

Lemma join_with_cons (sep : N) (p : pystr) (rest : list pystr) :
  rest <> [] -> join_with sep (p :: rest) = p ++ sep :: join_with sep rest.
Proof. destruct rest; [congruence|reflexivity]. Qed.

Lemma join_with_split (sep : N) (s : pystr) : join_with sep (split sep s) = s.
Proof.
  induction s as [|c s IH]; [reflexivity|].
  simpl split. destruct (N.eqb_spec c sep) as [->|Hne].
  - rewrite join_with_cons by apply split_not_nil. rewrite IH. reflexivity.
  - destruct (split sep s) as [|p ps] eqn:Hsp; [destruct (split_not_nil _ _ Hsp)|].
    destruct ps as [|q ps].
    + simpl in *. rewrite IH. reflexivity.
    + rewrite join_with_cons by discriminate.
      rewrite join_with_cons in IH by discriminate.
      rewrite <- IH. reflexivity.
Qed.

Lemma split_pieces_free (sep : N) (s : pystr) :
  Forall (fun p => count_char sep p = 0%nat) (split sep s).
Proof.
  induction s as [|c s IH]; simpl.
  - repeat constructor.
  - destruct (N.eqb_spec c sep) as [->|Hne].
    + constructor; [reflexivity|exact IH].
    + destruct (split sep s) as [|p ps]; [repeat constructor|].
      * simpl. destruct (N.eqb_spec c sep); [contradiction|reflexivity].
      * inversion IH; subst. constructor; [|assumption].
        simpl. destruct (N.eqb_spec c sep); [contradiction|assumption].
Qed.

Lemma split_length (sep : N) (s : pystr) :
  length (split sep s) = S (count_char sep s).
Proof.
  induction s as [|c s IH]; [reflexivity|].
  simpl. destruct (N.eqb_spec c sep) as [->|Hne].
  - simpl. rewrite IH. reflexivity.
  - destruct (split sep s) as [|p ps]; simpl in *; [discriminate IH|exact IH].
Qed.

(** X5: the pre-run report keeps the whole trimmed cell. Between its three
    banner lines and its three closing lines it prints one numbered line per
    piece; no piece holds a line break, and the pieces joined by line breaks
    are the cell text without its surrounding white space. *)
Theorem pre_run_print_keeps_cell_text (cell_content : pystr) :
  exists top pieces bottom,
    length top = 3%nat /\ length bottom = 3%nat
    /\ fst (pre_run_print cell_content)
       = top
         ++ map (fun p => Colors.BLUE ++ py "[" ++ format_2d (fst p) ++ py "] "
                            ++ snd p ++ Colors.END)
              (enumerate 1 pieces)
         ++ bottom
    /\ join_with LF pieces = strip cell_content
    /\ Forall (fun p => count_char LF p = 0%nat) pieces.
Proof.
  destruct (pre_run_print_lines cell_content) as (top & bottom & Ht & Hb & Heq).
  exists top, (split LF (strip cell_content)), bottom.
  rewrite Heq. repeat split; auto.
  - apply join_with_split.
  - apply split_pieces_free.
Qed.

Lemma post_run_print_count_line (v : pyval) (t : float) (cell_content : pystr) :
  Colors.YELLOW ++ ICON_LINES ++ py " Lines executed: "
    ++ dec_Z (Z.of_nat (length (split LF (strip cell_content)))) ++ Colors.END
  ∈ fst (post_run_print v t cell_content).
Proof.
  unfold post_run_print. rewrite !print_then. cbn [fst snd].
  do 4 apply list_elem_of_further. apply list_elem_of_here.
Qed.

(** X6: the two reports count alike. The number [post_run_print] prints as
    "Lines executed" is the number of numbered lines [pre_run_print] prints
    for the same cell: one more than the line breaks of the trimmed cell, so
    never zero, whatever the result is. *)
Theorem line_count_agrees (v : pyval) (t : float) (cell_content : pystr) :
  let n := (length (fst (pre_run_print cell_content)) - 6)%nat in
  n = S (count_char LF (strip cell_content))
  /\ Colors.YELLOW ++ ICON_LINES ++ py " Lines executed: " ++ dec_Z (Z.of_nat n)
       ++ Colors.END
     ∈ fst (post_run_print v t cell_content).
Proof.
  intros n.
  assert (Hn : n = length (split LF (strip cell_content))).
  { subst n.
    destruct (pre_run_print_lines cell_content) as (top & bottom & Ht & Hb & ->).
    cbn [fst]. rewrite !length_app, length_map, enumerate_length. lia. }
  rewrite Hn. split; [apply split_length|apply post_run_print_count_line].
Qed.

Lemma other_line_not_preview (lines : list pystr) (l : pystr) :
  forallb is_other_line lines = true -> l ∈ lines -> is_preview_line l = false.
Proof.
  intros Hall Hin. rewrite forallb_forall in Hall.
  apply list_elem_of_In in Hin. specialize (Hall l Hin).
  unfold is_other_line in Hall.
  destruct (is_preview_line l); [|reflexivity].
  rewrite orb_true_r in Hall. discriminate Hall.
Qed.

Lemma preview_length (s : pystr) : (length (preview s) <= 203)%nat.
Proof.
  destruct (Nat.le_gt_cases (length s) 200) as [Hle|Hgt].
  - rewrite preview_short by assumption. lia.
  - destruct (preview_long s Hgt) as (_ & -> & _). lia.
Qed.

(** X7: the summary's preview stays short. Whatever the result and however
    long its text, a preview line of [post_run_print] has at most 233
    characters: colour codes, label, and at most 203 characters of
    preview. *)
Theorem preview_line_bounded (v : pyval) (t : float) (cell_content line : pystr) :
  line ∈ fst (post_run_print v t cell_content) ->
  is_preview_line line = true ->
  (length line <= 233)%nat.
Proof.
  intros Hin Hkind.
  destruct (post_run_print_lines v t cell_content) as (top & bottom & Ht & Hb & Heq).
  assert (Hcases :
            line ∈ top \/ line ∈ bottom \/ line = no_value_line
            \/ line = type_line v
            \/ exists s, line = preview_line (preview s)).
  { rewrite Heq in Hin. destruct v as [|n|x|s|cls outcome];
      try destruct (py_str _) as [e|s0]; cbn [fst] in Hin;
      rewrite ?elem_of_app, ?elem_of_cons in Hin;
      try destruct (truthy (strip (preview _)));
      rewrite ?elem_of_app, ?elem_of_cons, ?elem_of_nil in Hin;
      intuition eauto. }
  destruct Hcases as [H|[H|[->|[->|[s ->]]]]].
  - rewrite (other_line_not_preview top line Ht H) in Hkind. discriminate.
  - rewrite (other_line_not_preview bottom line Hb H) in Hkind. discriminate.
  - destruct no_value_line_kind as (_ & _ & H). rewrite H in Hkind. discriminate.
  - destruct (type_line_kind v) as (_ & H & _). rewrite H in Hkind. discriminate.
  - unfold preview_line. rewrite !length_app.
    pose proof (preview_length s).
    change (length Colors.YELLOW) with 5%nat.
    change (length ICON_PREVIEW) with 4%nat.
    change (length (py " Result preview: ")) with 17%nat.
    change (length Colors.END) with 4%nat. lia.
Qed.

Lemma preview_line_bounded_witness :
  (length (Colors.YELLOW ++ ICON_PREVIEW ++ py " Result preview: "
             ++ replicate 200 120%N ++ py "..." ++ Colors.END) <= 233)%nat.
Proof.
  apply (preview_line_bounded (VStr (replicate 250 120%N)) 1.5%float (py "x")).
  - vm_compute. do 6 apply list_elem_of_further. apply list_elem_of_here.
  - vm_compute. reflexivity.
Defined.

Lemma realtime_print_guard (timestamp text : pystr) :
  realtime_print timestamp text
  = if truthy (strip text) then
      print (Colors.GREEN ++ py "[" ++ timestamp ++ py "] " ++ strip text
               ++ Colors.END)
    else ret tt.
Proof. unfold realtime_print. rewrite write_guard. reflexivity. Qed.

(** X8: [realtime_print] does not see white space around its text. The
    text and its trimmed form print the same; a text of white space alone
    prints nothing; any other text prints one line, whose body starts and
    ends with a character that is not white space. *)
Theorem realtime_print_ignores_padding (timestamp text : pystr) :
  realtime_print timestamp (strip text) = realtime_print timestamp text
  /\ (forallb is_space text = true ->
      realtime_print timestamp text = ([], inr tt))
  /\ (forallb is_space text = false ->
      exists body,
        body <> [] /\ trimmed body
        /\ realtime_print timestamp text
           = ([Colors.GREEN ++ py "[" ++ timestamp ++ py "] " ++ body
                 ++ Colors.END], inr tt)).
Proof.
  rewrite !realtime_print_guard, strip_idempotent, truthy_strip.
  split; [reflexivity|]. split.
  - intros ->. reflexivity.
  - intros Hn. rewrite Hn. exists (strip text). repeat split.
    + destruct (strip_not_blank text Hn) as (a & u & _ & _ & -> & _). discriminate.
    + apply strip_trimmed.
    + apply strip_trimmed.
Qed.

(** ** The hook: callbacks, commands, loading *)

Lemma print_out_wiring (text : pystr) (w : World) :
  tee_consistent w ->
  exists w', print_out text w = Some w' /\ same_wiring w w'.
Proof.
  intros [Ho Hs]. unfold print_out.
  destruct (sys_stdout w) eqn:Hout.
  - exists w. split; [reflexivity|apply same_wiring_refl].
  - assert (Hblank : forall w0, write w0 [LF] = Some w0)
      by (intros w0; apply write_blank; reflexivity).
    destruct (truthy (strip text)) eqn:Hk.
    + rewrite write_kept by assumption. rewrite Hblank.
      eexists; split; [reflexivity|apply after_writes_wiring].
    + rewrite write_blank by assumption. rewrite Hblank.
      exists w. split; [reflexivity|apply same_wiring_refl].
  - eexists; split; [reflexivity|]. unfold same_wiring. simpl. auto.
Qed.

Lemma print_all_wiring (texts : list pystr) (w : World) :
  tee_consistent w ->
  exists w', print_all texts w = Some w' /\ same_wiring w w'.
Proof.
  revert w. induction texts as [|text rest IH]; intros w Hw; simpl.
  - exists w. split; [reflexivity|apply same_wiring_refl].
  - destruct (print_out_wiring text w Hw) as (w1 & -> & H1).
    destruct (IH w1 (same_wiring_consistent _ _ H1 Hw)) as (w2 & -> & H2).
    exists w2. split; [reflexivity|]. eapply same_wiring_trans; eauto.
Qed.

Lemma print_all_on_stream (lines : list pystr) (w : World) (h : nat) :
  sys_stdout w = Real h ->
  print_all lines w
  = Some {| sys_stdout := sys_stdout w; sys_stderr := sys_stderr w;
            output_capture := output_capture w;
            trace := trace w ++ printed_on h lines |}.
Proof.
  revert w. induction lines as [|line rest IH]; intros w Hw; simpl.
  - unfold printed_on. simpl. rewrite app_nil_r, world_eta. reflexivity.
  - unfold print_out. rewrite Hw. rewrite IH by reflexivity.
    simpl. unfold printed_on. simpl. rewrite <- app_assoc. reflexivity.
Qed.

(** A formatter that returns, run in a consistent output state, returns. *)
Lemma emit_returns {A} (lines : list pystr) (a : A) (s : Session) :
  tee_consistent (io s) ->
  exists w, emit (lines, inr a) s = Done a (set_io w s) /\ same_wiring (io s) w.
Proof.
  intros Hs. unfold emit. cbn [fst snd].
  destruct (print_all_wiring lines (io s) Hs) as (w & -> & Hw).
  exists w. split; [reflexivity|assumption].
Qed.

Lemma pre_run_print_returns (cell_content : pystr) :
  pre_run_print cell_content = (fst (pre_run_print cell_content), inr tt).
Proof.
  destruct (pre_run_print_lines cell_content) as (top & bottom & _ & _ & ->).
  reflexivity.
Qed.


(** X9: [pre_execute], fired on an active hook, returns, and leaves in the
    namespace exactly one change: the key ['_cell_start_time'] now holds the
    clock's reading, every other key is as before. It reads the clock once,
    and leaves the capture session active; when the session was inactive,
    the tee is now both targets and its snapshot holds the old ones. *)
Theorem pre_execute_records_start_time (s : Session) (shell : Shell) :
  active (cell_hook s) = true ->
  ip (cell_hook s) = Some shell ->
  tee_consistent (io s) ->
  exists s',
    pre_execute s = Done tt s'
    /\ namespace s' !! CELL_START_TIME = Some (VFloat (clock s (ticks s)))
    /\ (forall key, key <> CELL_START_TIME ->
          namespace s' !! key = user_ns shell !! key)
    /\ ticks s' = S (ticks s)
    /\ is_capturing (output_capture (io s')) = true
    /\ (is_capturing (output_capture (io s)) = false ->
        sys_stdout (io s') = Self /\ sys_stderr (io s') = Self
        /\ original_stdout (output_capture (io s')) = sys_stdout (io s)
        /\ original_stderr (output_capture (io s')) = sys_stderr (io s)).
Proof.
  intros Ha Hip Hc. unfold pre_execute. rewrite Ha, Hip.
  rewrite pre_run_print_returns.
  destruct (emit_returns (fst (pre_run_print (cell_content_of shell))) tt s Hc)
    as (w & -> & (W1 & W2 & W3 & W4 & W5)).
  cbn [time_time set_io io cell_hook clock ticks].
  eexists. split; [reflexivity|].
  unfold namespace, set_user_ns. cbn [cell_hook ip io ticks]. rewrite Hip.
  cbn [user_ns].
  split; [apply lookup_insert_eq|].
  split; [intros key Hkey; apply lookup_insert_ne; congruence|].
  split; [reflexivity|].
  unfold start_capture. rewrite W5.
  destruct (is_capturing (output_capture (io s))) eqn:Hcap; simpl.
  - split; [assumption|]. intros H; discriminate H.
  - split; [reflexivity|]. intros _. auto.
Qed.

Lemma pre_execute_records_start_time_witness :
  exists s',
    pre_execute sample_session = Done tt s'
    /\ namespace s' !! CELL_START_TIME = Some (VFloat 100%float)
    /\ is_capturing (output_capture (io s')) = true.
Proof.
  destruct (pre_execute_records_start_time sample_session
              {| user_ns := ∅; _current_cell_content := Some (py "6 * 7") |}
              eq_refl eq_refl)
    as (s' & Hrun & Hkey & _ & _ & Hcap & _).
  - unfold tee_consistent. simpl. split; [|intros _]; discriminate.
  - exists s'. auto.
Defined.

(** The state [pre_execute] leaves, in full. *)
Lemma pre_execute_runs (s : Session) (shell : Shell) :
  active (cell_hook s) = true ->
  ip (cell_hook s) = Some shell ->
  tee_consistent (io s) ->
  exists w,
    same_wiring (io s) w
    /\ print_all (fst (pre_run_print (cell_content_of shell))) (io s) = Some w
    /\ pre_execute s
       = Done tt
           {| io := start_capture w;
              cell_hook :=
                {| ip := Some {| user_ns :=
                                   <[CELL_START_TIME := VFloat (clock s (ticks s))]>
                                     (user_ns shell);
                                 _current_cell_content := _current_cell_content shell |};
                   active := true |};
              clock := clock s;
              ticks := S (ticks s) |}.
Proof.
  intros Ha Hip Hc. unfold pre_execute. rewrite Ha, Hip.
  rewrite pre_run_print_returns. unfold emit. cbn [fst snd].
  destruct (print_all_wiring (fst (pre_run_print (cell_content_of shell))) (io s) Hc)
    as (w & -> & Hw).
  exists w. split; [assumption|]. split; [reflexivity|].
  cbn [time_time set_io io cell_hook clock ticks].
  unfold set_user_ns. cbn [cell_hook ip io ticks clock active].
  rewrite Hip, Ha. reflexivity.
Qed.






Lemma registrations_app (event : pystr) (cb : callback) (a b : list host_call) :
  registrations event cb (a ++ b)
  = (registrations event cb a + registrations event cb b)%Z.
Proof.
  induction a as [|c a IH]; [reflexivity|].
  destruct c; simpl; rewrite IH; lia.
Qed.

Lemma emit_print_returns (line : pystr) (s : Session) :
  tee_consistent (io s) ->
  exists w, emit (print line) s = Done tt (set_io w s) /\ same_wiring (io s) w.
Proof. intros Hc. apply (emit_returns [line] tt s Hc). Qed.

Ltac split_conj := repeat match goal with |- _ /\ _ => split end.

(** One command on a hook that holds a shell. *)
Lemma run_command_step (s : Session) (shell : Shell) (c : command) :
  ip (cell_hook s) = Some shell ->
  tee_consistent (io s) ->
  exists calls s',
    run_command s c = (calls, Done tt s')
    /\ active (cell_hook s') = flag_after [c] (active (cell_hook s))
    /\ ip (cell_hook s') = Some shell
    /\ same_wiring (io s) (io s')
    /\ registrations PRE_EXECUTE PreExecuteCallback calls
       = (Z.b2z (active (cell_hook s')) - Z.b2z (active (cell_hook s)))%Z
    /\ registrations POST_EXECUTE PostExecuteCallback calls
       = (Z.b2z (active (cell_hook s')) - Z.b2z (active (cell_hook s)))%Z
    /\ registrations PRE_EXECUTE PostExecuteCallback calls = 0%Z
    /\ registrations POST_EXECUTE PreExecuteCallback calls = 0%Z.
Proof.
  intros Hip Hc. destruct c; simpl.
  - unfold activate. destruct (active (cell_hook s)) eqn:Ha; simpl.
    + exists [], s. rewrite Ha. split_conj; auto using same_wiring_refl.
    + rewrite Hip.
      destruct (emit_print_returns activated_line (set_active true s) Hc)
        as (w & -> & Hw).
      eexists _, _. split; [reflexivity|]. simpl. split_conj; auto.
  - unfold deactivate. destruct (active (cell_hook s)) eqn:Ha; simpl.
    + rewrite Hip.
      destruct (emit_print_returns deactivated_line (set_active false s) Hc)
        as (w & -> & Hw).
      eexists _, _. split; [reflexivity|]. simpl. split_conj; auto.
    + exists [], s. rewrite Ha. split_conj; auto using same_wiring_refl.
  - unfold status.
    destruct (emit_print_returns (status_line (active (cell_hook s))) s Hc)
      as (w & -> & Hw).
    eexists _, _. split; [reflexivity|]. simpl.
    split_conj; auto; lia.
Qed.

Lemma flag_after_cons (c : command) (rest : list command) (flag : bool) :
  flag_after (c :: rest) flag = flag_after rest (flag_after [c] flag).
Proof. reflexivity. Qed.

(** X11: the hook is a two-state machine, and its registrations follow its
    state. On a hook that holds a shell, every sequence of on, off and
    status commands returns; the hook ends active exactly when the last on
    or off command was on (status commands change nothing); and over the
    whole sequence each callback is registered for its own event once more
    than unregistered when the hook went from off to on, once less when it
    went from on to off, and equally often otherwise. No callback is ever
    registered for the other event, and the namespace is left alone. *)
Theorem hook_commands_balance (commands : list command) (s : Session) (shell : Shell) :
  ip (cell_hook s) = Some shell ->
  tee_consistent (io s) ->
  exists calls s',
    run_commands s commands = (calls, Done tt s')
    /\ active (cell_hook s') = flag_after commands (active (cell_hook s))
    /\ registrations PRE_EXECUTE PreExecuteCallback calls
       = (Z.b2z (active (cell_hook s')) - Z.b2z (active (cell_hook s)))%Z
    /\ registrations POST_EXECUTE PostExecuteCallback calls
       = (Z.b2z (active (cell_hook s')) - Z.b2z (active (cell_hook s)))%Z
    /\ registrations PRE_EXECUTE PostExecuteCallback calls = 0%Z
    /\ registrations POST_EXECUTE PreExecuteCallback calls = 0%Z
    /\ ip (cell_hook s') = Some shell
    /\ same_wiring (io s) (io s').
Proof.
  revert s. induction commands as [|c rest IH]; intros s Hip Hc.
  - exists [], s. simpl. split_conj; auto using same_wiring_refl; lia.
  - destruct (run_command_step s shell c Hip Hc)
      as (calls1 & s1 & Hrun & Hflag & Hip1 & Hw1 & R1 & R2 & R3 & R4).
    destruct (IH s1 Hip1 (same_wiring_consistent _ _ Hw1 Hc))
      as (calls2 & s2 & Hrest & Hflag2 & Q1 & Q2 & Q3 & Q4 & Hip2 & Hw2).
    exists (calls1 ++ calls2), s2.
    cbn [run_commands]. rewrite Hrun, Hrest.
    rewrite !registrations_app, R1, R2, R3, R4, Q1, Q2, Q3, Q4.
    rewrite flag_after_cons, <- Hflag.
    split_conj; auto; try lia.
    eapply same_wiring_trans; eauto.
Qed.

Lemma hook_commands_balance_witness :
  exists calls s',
    run_commands (module_globals (Some {| user_ns := ∅; _current_cell_content := None |})
                    1 2 sample_clock)
      [TurnOn; TurnOn; ShowStatus; TurnOff; TurnOn]
    = (calls, Done tt s')
    /\ active (cell_hook s') = true
    /\ registrations PRE_EXECUTE PreExecuteCallback calls = 1%Z
    /\ registrations POST_EXECUTE PostExecuteCallback calls = 1%Z.
Proof.
  destruct (hook_commands_balance [TurnOn; TurnOn; ShowStatus; TurnOff; TurnOn]
              (module_globals (Some {| user_ns := ∅; _current_cell_content := None |})
                 1 2 sample_clock)
              {| user_ns := ∅; _current_cell_content := None |} eq_refl)
    as (calls & s' & Hrun & Hflag & R1 & R2 & _).
  - unfold tee_consistent. simpl. split; [|intros _]; discriminate.
  - exists calls, s'. split; [exact Hrun|]. split; [exact Hflag|].
    rewrite R1, R2, Hflag. split; reflexivity.
Defined.

(** X12: outside IPython the monitor cannot be switched on. On a hook that
    holds no shell and is inactive, no sequence of commands makes a host
    call or activates the hook: off and status commands return, and the
    first on command raises [AttributeError], ending the sequence. *)
Theorem commands_outside_ipython (commands : list command) (s : Session) :
  ip (cell_hook s) = None ->
  active (cell_hook s) = false ->
  tee_consistent (io s) ->
  exists s',
    active (cell_hook s') = false
    /\ ip (cell_hook s') = None
    /\ run_commands s commands
       = ([], if turns_on commands then Raised AttributeError s' else Done tt s').
Proof.
  revert s. induction commands as [|c rest IH]; intros s Hip Ha Hc.
  - exists s. auto.
  - destruct c.
    + exists s. split; [assumption|]. split; [assumption|].
      cbn [run_commands run_command]. unfold activate. rewrite Ha, Hip.
      reflexivity.
    + destruct (IH s Hip Ha Hc) as (s' & Ha' & Hip' & Hrun).
      exists s'. split; [assumption|]. split; [assumption|].
      cbn [run_commands run_command]. unfold deactivate. rewrite Ha, Hrun.
      reflexivity.
    + destruct (emit_print_returns (status_line (active (cell_hook s))) s Hc)
        as (w & Hemit & Hw).
      destruct (IH (set_io w s) Hip Ha (same_wiring_consistent _ _ Hw Hc))
        as (s' & Ha' & Hip' & Hrun).
      exists s'. split; [assumption|]. split; [assumption|].
      cbn [run_commands run_command]. unfold status. rewrite Hemit, Hrun.
      reflexivity.
Qed.

Lemma commands_outside_ipython_witness :
  fst (import_module None 1 2 sample_clock) = []
  /\ exists s',
       active (cell_hook s') = false
       /\ run_commands (module_globals None 1 2 sample_clock)
            [ShowStatus; TurnOff; TurnOn; ShowStatus]
          = ([], Raised AttributeError s').
Proof.
  split; [reflexivity|].
  destruct (commands_outside_ipython [ShowStatus; TurnOff; TurnOn; ShowStatus]
              (module_globals None 1 2 sample_clock) eq_refl eq_refl)
    as (s' & Ha & _ & Hrun).
  - unfold tee_consistent. simpl. split; [|intros _]; discriminate.
  - exists s'. split; [exact Ha|exact Hrun].
Defined.

Lemma deactivated_line_kept : truthy (strip deactivated_line) = true.
Proof. vm_compute. reflexivity. Qed.

(** X13: switching the monitor off does not stop a capture. When the hook
    is switched off between [pre_execute] and [post_execute] (by a monitored
    cell that runs [%cell_monitor_off]), the notice itself goes through the
    tee, which stays installed as both targets with the session active; and
    [post_execute], if it still fires, does nothing, so the streams are not
    handed back. *)
Theorem deactivate_leaves_capture_running (s : Session) (shell : Shell) (h : nat) :
  active (cell_hook s) = true ->
  ip (cell_hook s) = Some shell ->
  is_capturing (output_capture (io s)) = false ->
  sys_stdout (io s) = Real h ->
  original_stdout (output_capture (io s)) <> Self ->
  exists s1 s2,
    pre_execute s = Done tt s1
    /\ deactivate s1
       = ([EventsUnregister PRE_EXECUTE PreExecuteCallback;
           EventsUnregister POST_EXECUTE PostExecuteCallback], Done tt s2)
    /\ is_capturing (output_capture (io s2)) = true
    /\ sys_stdout (io s2) = Self
    /\ sys_stderr (io s2) = Self
    /\ captured_output (output_capture (io s2)) = [deactivated_line]
    /\ trace (io s2)
       = trace (io s)
         ++ printed_on h (fst (pre_run_print (cell_content_of shell)))
         ++ [Wrote h (realtime_copy deactivated_line); Flushed h]
    /\ post_execute s2 = Done tt s2.
Proof.
  intros Ha Hip Hcap Hout Horig.
  assert (Hc : tee_consistent (io s)).
  { split; [assumption|]. intros _. rewrite Hout. discriminate. }
  destruct (pre_execute_runs s shell Ha Hip Hc) as (w & _ & Hprint & Hpre).
  rewrite (print_all_on_stream _ _ h Hout) in Hprint.
  inversion Hprint as [Hw]. clear Hprint. rewrite <- Hw in Hpre. clear Hw w.
  eexists. eexists. split; [exact Hpre|].
  unfold deactivate, emit, start_capture.
  cbn [cell_hook active ip io set_active fst snd print print_all print_out
       sys_stdout output_capture is_capturing negb].
  rewrite Hcap.
  cbn [negb sys_stdout write output_capture original_stdout original_stderr
       captured_output is_capturing trace sys_stderr].
  rewrite print_out_through_tee;
    [|reflexivity|simpl; rewrite Hout; discriminate].
  rewrite write_kept;
    [|apply deactivated_line_kept|simpl; rewrite Hout; discriminate].
  split; [reflexivity|].
  unfold after_writes, kept. cbn [List.filter]. rewrite deactivated_line_kept.
  cbn [io set_io set_active output_capture is_capturing sys_stdout sys_stderr
       captured_output original_stdout trace app flat_map].
  rewrite Hout. cbn [forwarded app].
  split; [reflexivity|]. split; [reflexivity|]. split; [reflexivity|].
  split; [reflexivity|]. split.
  - rewrite <- app_assoc. reflexivity.
  - reflexivity.
Qed.

Lemma deactivate_leaves_capture_running_witness :
  exists s1 s2,
    pre_execute sample_session = Done tt s1
    /\ snd (deactivate s1) = Done tt s2
    /\ is_capturing (output_capture (io s2)) = true
    /\ sys_stdout (io s2) = Self
    /\ post_execute s2 = Done tt s2.
Proof.
  destruct (deactivate_leaves_capture_running sample_session
              {| user_ns := ∅; _current_cell_content := Some (py "6 * 7") |} 1
              eq_refl eq_refl eq_refl eq_refl)
    as (s1 & s2 & H1 & H2 & H3 & H4 & _ & _ & _ & H8).
  - discriminate.
  - exists s1, s2. rewrite H2. auto.
Defined.

Lemma count_calls_app (p : host_call -> bool) (a b : list host_call) :
  count_calls p (a ++ b) = (count_calls p a + count_calls p b)%nat.
Proof. unfold count_calls. rewrite List.filter_app, length_app. reflexivity. Qed.

(** Loading again while the hook is active: the transform is wrapped and the
    three commands are registered once more each time, and nothing else
    happens. *)
Lemma load_times_active (n : nat) (s : Session) :
  active (cell_hook s) = true ->
  exists calls,
    load_times n s = (calls, Done tt s)
    /\ count_calls is_set_transform calls = n
    /\ count_calls is_register_magic calls = (3 * n)%nat
    /\ count_calls is_events_register calls = 0%nat
    /\ registrations PRE_EXECUTE PreExecuteCallback calls = 0%Z
    /\ registrations POST_EXECUTE PostExecuteCallback calls = 0%Z.
Proof.
  intros Ha. induction n as [|n IH].
  - exists []. repeat split.
  - destruct IH as (calls & Hrun & C1 & C2 & C3 & R1 & R2).
    eexists. cbn [load_times]. unfold load_ipython_extension, activate.
    rewrite Ha. cbn [negb]. rewrite Hrun.
    split; [reflexivity|].
    rewrite !count_calls_app, !registrations_app, C1, C2, C3, R1, R2.
    repeat split; try reflexivity. cbn. lia.
Qed.

(** X14: loading twice is safe for the callbacks, not for the wrapper.
    After the import inside IPython, which loads the extension once, [n]
    further loads (as [%load_ext] does one) all return; the transform has
    then been wrapped [n + 1] times and the three commands registered
    [n + 1] times each, but each callback is registered once, the hook is
    active, and the activation notice was printed once. *)
Theorem load_again_registers_once (shell : Shell) (out err : nat)
    (clock : nat -> float) (n : nat) :
  exists calls0 s0 calls s,
    import_module (Some shell) out err clock = (calls0, Done tt s0)
    /\ load_times n s0 = (calls, Done tt s)
    /\ count_calls is_set_transform (calls0 ++ calls) = S n
    /\ count_calls is_register_magic (calls0 ++ calls) = (3 * S n)%nat
    /\ count_calls is_events_register (calls0 ++ calls) = 2%nat
    /\ registrations PRE_EXECUTE PreExecuteCallback (calls0 ++ calls) = 1%Z
    /\ registrations POST_EXECUTE PostExecuteCallback (calls0 ++ calls) = 1%Z
    /\ active (cell_hook s) = true
    /\ trace (io s) = [Wrote out activated_line; Wrote out [LF]].
Proof.
  eexists. eexists.
  edestruct (load_times_active n) as (calls & Hrun & C1 & C2 & C3 & R1 & R2);
    [|exists calls; eexists; split; [reflexivity|]; split; [exact Hrun|]].
  - reflexivity.
  - rewrite !count_calls_app, !registrations_app, C1, C2, C3, R1, R2.
    repeat split; try reflexivity. cbn. lia.
Qed.

(** X15: the pre-run report shows the cell the wrapper saw. The wrapper
    around [transform_cell] returns what the wrapped function returns, and
    the next [pre_execute] prints the report of the raw cell it was given;
    on a shell whose transform has never run, the report is that of the
    placeholder text. *)
Theorem pre_run_report_shows_raw_cell {A} (original_transform : pystr -> A)
    (raw_cell : pystr) (s : Session) (shell : Shell) (h : nat) :
  active (cell_hook s) = true ->
  ip (cell_hook s) = Some shell ->
  sys_stdout (io s) = Real h ->
  fst (enhanced_transform original_transform raw_cell s) = original_transform raw_cell
  /\ (exists s',
        pre_execute (snd (enhanced_transform original_transform raw_cell s))
        = Done tt s'
        /\ trace (io s') = trace (io s) ++ printed_on h (fst (pre_run_print raw_cell)))
  /\ (_current_cell_content shell = None ->
      exists s',
        pre_execute s = Done tt s'
        /\ trace (io s')
           = trace (io s) ++ printed_on h (fst (pre_run_print NO_CONTENT))).
Proof.
  intros Ha Hip Hout. split; [reflexivity|]. split.
  - unfold enhanced_transform, set_current_cell_content. cbn [snd].
    unfold pre_execute, emit, cell_content_of.
    cbn [cell_hook active ip io _current_cell_content default].
    rewrite Ha, Hip. cbn [_current_cell_content default].
    rewrite pre_run_print_returns. cbn [fst snd].
    rewrite (print_all_on_stream _ _ h Hout).
    eexists. split; [reflexivity|].
    cbn [time_time set_io set_user_ns io cell_hook clock ticks ip active].
    unfold start_capture. cbn [output_capture is_capturing trace].
    destruct (negb (is_capturing (output_capture (io s)))); reflexivity.
  - intros Hnone. unfold pre_execute, emit, cell_content_of.
    rewrite Ha, Hip, Hnone. cbn [default].
    rewrite pre_run_print_returns. cbn [fst snd].
    rewrite (print_all_on_stream _ _ h Hout).
    eexists. split; [reflexivity|].
    cbn [time_time set_io set_user_ns io cell_hook clock ticks ip active].
    unfold start_capture. cbn [output_capture is_capturing trace].
    destruct (negb (is_capturing (output_capture (io s)))); reflexivity.
Qed.

Lemma pre_run_report_shows_raw_cell_witness :
  exists s',
    pre_execute (snd (enhanced_transform (fun raw => raw) (py "1 + 1") sample_session))
    = Done tt s'
    /\ trace (io s') = printed_on 1 (fst (pre_run_print (py "1 + 1"))).
Proof.
  exact (proj1 (proj2 (pre_run_report_shows_raw_cell (fun raw => raw) (py "1 + 1")
                         sample_session
                         {| user_ns := ∅; _current_cell_content := Some (py "6 * 7") |}
                         1 eq_refl eq_refl eq_refl))).
Defined.

Lemma load_step (s : Session) (shell : Shell) :
  ip (cell_hook s) = Some shell ->
  tee_consistent (io s) ->
  exists calls s',
    load_ipython_extension s = (calls, Done tt s')
    /\ active (cell_hook s') = true
    /\ ip (cell_hook s') = Some shell
    /\ same_wiring (io s) (io s')
    /\ count_calls is_set_transform calls = 1%nat
    /\ count_calls is_register_magic calls = 3%nat
    /\ registrations PRE_EXECUTE PreExecuteCallback calls
       = (1 - Z.b2z (active (cell_hook s)))%Z
    /\ registrations POST_EXECUTE PostExecuteCallback calls
       = (1 - Z.b2z (active (cell_hook s)))%Z.
Proof.
  intros Hip Hc.
  destruct (run_command_step s shell TurnOn Hip Hc)
    as (calls & s' & Hrun & Hflag & Hip' & Hw & R1 & R2 & _).
  cbn [run_command] in Hrun. cbn in Hflag.
  exists ([SetTransformCell;
           RegisterMagicFunction MagicOn (py "line") (py "cell_monitor_on");
           RegisterMagicFunction MagicOff (py "line") (py "cell_monitor_off");
           RegisterMagicFunction MagicStatus (py "line") (py "cell_monitor_status")]
            ++ calls), s'.
  unfold load_ipython_extension. rewrite Hrun.
  rewrite !count_calls_app, !registrations_app, R1, R2, Hflag.
  split_conj; auto.
  - unfold activate in Hrun.
    destruct (negb (active (cell_hook s))); [rewrite Hip in Hrun|];
      inversion Hrun; reflexivity.
  - unfold activate in Hrun.
    destruct (negb (active (cell_hook s))); [rewrite Hip in Hrun|];
      inversion Hrun; reflexivity.
Qed.

(** X16: unloading undoes the registration of the callbacks and nothing
    else. After the import inside IPython, [n] rounds of unload and load all
    return and leave the hook active with each callback registered once on
    balance; but the transform has been wrapped once more per round, and the
    three commands registered once more per round, for no unload takes
    either back. *)
Theorem reload_keeps_wrapping (shell : Shell) (out err : nat)
    (clock : nat -> float) (n : nat) :
  exists calls0 s0 calls s,
    import_module (Some shell) out err clock = (calls0, Done tt s0)
    /\ reload_times n s0 = (calls, Done tt s)
    /\ active (cell_hook s) = true
    /\ registrations PRE_EXECUTE PreExecuteCallback (calls0 ++ calls) = 1%Z
    /\ registrations POST_EXECUTE PostExecuteCallback (calls0 ++ calls) = 1%Z
    /\ count_calls is_set_transform (calls0 ++ calls) = S n
    /\ count_calls is_register_magic (calls0 ++ calls) = (3 * S n)%nat.
Proof.
  assert (Hgen : forall m s, ip (cell_hook s) = Some shell ->
            active (cell_hook s) = true -> tee_consistent (io s) ->
            exists calls s',
              reload_times m s = (calls, Done tt s')
              /\ active (cell_hook s') = true
              /\ registrations PRE_EXECUTE PreExecuteCallback calls = 0%Z
              /\ registrations POST_EXECUTE PostExecuteCallback calls = 0%Z
              /\ count_calls is_set_transform calls = m
              /\ count_calls is_register_magic calls = (3 * m)%nat).
  { induction m as [|m IH]; intros s Hip Ha Hc.
    - exists [], s. split_conj; auto.
    - destruct (run_command_step s shell TurnOff Hip Hc)
        as (c1 & s1 & Hrun1 & Hf1 & Hip1 & Hw1 & P1 & P2 & _).
      cbn [run_command] in Hrun1. cbn in Hf1. rewrite Hf1, Ha in P1, P2.
      assert (Hc1 : tee_consistent (io s1))
        by (eapply same_wiring_consistent; eauto).
      destruct (load_step s1 shell Hip1 Hc1)
        as (c2 & s2 & Hrun2 & Ha2 & Hip2 & Hw2 & T2 & M2 & Q1 & Q2).
      rewrite Hf1 in Q1, Q2.
      assert (Hc2 : tee_consistent (io s2))
        by (eapply same_wiring_consistent; eauto).
      destruct (IH s2 Hip2 Ha2 Hc2) as (c3 & s3 & Hrun3 & Ha3 & R1 & R2 & T3 & M3).
      exists (c1 ++ c2 ++ c3), s3.
      cbn [reload_times]. unfold unload_ipython_extension.
      rewrite Hrun1, Hrun2, Hrun3.
      rewrite !count_calls_app, !registrations_app, P1, P2, Q1, Q2, R1, R2, T2, M2, T3, M3.
      assert (T1 : count_calls is_set_transform c1 = 0%nat
                   /\ count_calls is_register_magic c1 = 0%nat).
      { unfold deactivate in Hrun1. rewrite Ha, Hip in Hrun1.
        inversion Hrun1. split; reflexivity. }
      destruct T1 as [-> ->].
      split_conj; auto; simpl; lia. }
  eexists. eexists.
  edestruct (Hgen n) as (calls & s & Hrun & Ha & R1 & R2 & T & M);
    [| | |exists calls, s; split; [reflexivity|]; split; [exact Hrun|]].
  - reflexivity.
  - reflexivity.
  - unfold tee_consistent. simpl. split; [|intros _]; discriminate.
  - rewrite !count_calls_app, !registrations_app, R1, R2, T, M.
    split_conj; auto; try reflexivity. cbn. lia.
Qed.
